(** * Travel-Planning-Agent-ADK: the tool layer, the offline builder and the
      chat façade, embedded in Rocq.

    Source files embedded here:
    - [Travel Agent ADK/tools_adk.py]: [kb_search], [web_search],
      [search_flight_price], [get_weather], [save_preference],
      [load_preferences] and the import-time loading of the knowledge base
      and of the preference file;
    - [main_adk.py]: [get_or_create_session_id] and [chat_endpoint];
    - [build_rag.py]: [create_vector_store] and [main].

    Conventions.  A Python [str] is a Rocq [string], one [ascii] per code
    point (code points below 256).  A Python [int] is a [Z], a Python
    [float] a primitive [float].  A function that can raise returns an
    [Exc]; the exceptions modelled are the instances of Python's
    [Exception] class, the ones an [except Exception] clause catches.
    Dictionaries with a fixed set of keys are records, a key that is only
    sometimes present is an [option] field.  The disk is a finite map from
    paths to directories and files.  External libraries (FAISS, the
    embedding model, [requests], the ADK runner, LangChain) are taken as
    functions of the objects that stand for them. *)

From Stdlib Require Import ZArith String Ascii List DecimalString.
From Stdlib Require Import Floats.PrimFloat.
From stdpp Require Import base option list gmap strings fin_maps.

Set Warnings "-register-all".


Open Scope Z_scope.

(** ** Exceptions *)

(** An exception: its class name and what [str(e)] gives. *)
Record exn := Exn { exn_class : string; exn_str : string }.

Inductive Exc (A : Type) : Type :=
| Ok (a : A)
| Raise (e : exn).
Arguments Ok {A} a.
Arguments Raise {A} e.

(** Sequencing, written [x ← m; k]: an exception of [m] ends the run. *)
#[global] Instance Exc_bind : MBind Exc :=
  fun A B f m => match m with Ok a => f a | Raise e => Raise e end.

(** [try: m except Exception as e: h e]. *)
Definition try_except {A} (m : Exc A) (h : exn → Exc A) : Exc A :=
  match m with Ok a => Ok a | Raise e => h e end.

Definition AttributeError (msg : string) : exn := Exn "AttributeError" msg.
Definition TypeError (msg : string) : exn := Exn "TypeError" msg.
Definition FileNotFoundError (msg : string) : exn := Exn "FileNotFoundError" msg.
Definition IsADirectoryError (msg : string) : exn := Exn "IsADirectoryError" msg.
Definition NotADirectoryError (msg : string) : exn := Exn "NotADirectoryError" msg.
Definition FileExistsError (msg : string) : exn := Exn "FileExistsError" msg.
Definition JSONDecodeError (msg : string) : exn := Exn "JSONDecodeError" msg.
Definition RuntimeError (msg : string) : exn := Exn "RuntimeError" msg.

(** ** Python values that come out of [json.load] *)

Inductive json : Type :=
| JNull
| JBool (b : bool)
| JInt (n : Z)
| JFloat (x : float)
| JStr (s : string)
| JArr (l : list json)
| JObj (d : list (string * json)).

(** A [dict] with string keys, in insertion order. *)
Definition pydict : Type := list (string * json).

Fixpoint dict_lookup (k : string) (d : pydict) : option json :=
  match d with
  | [] => None
  | (k', v) :: d' => if decide (k' = k) then Some v else dict_lookup k d'
  end.

(** [d.get(k, default)] *)
Definition dict_get (k : string) (default : json) (d : pydict) : json :=
  from_option id default (dict_lookup k d).

(** [d[k] = v]: an existing key keeps its place, a new key goes last. *)
Fixpoint dict_set (k : string) (v : json) (d : pydict) : pydict :=
  match d with
  | [] => [(k, v)]
  | (k', v') :: d' =>
      if decide (k' = k) then (k', v) :: d' else (k', v') :: dict_set k v d'
  end.

(** [x.get(k, default)] on any value: only a [dict] has the method. *)
Definition py_get (x : json) (k : string) (default : json) : Exc json :=
  match x with
  | JObj d => Ok (dict_get k default d)
  | _ => Raise (AttributeError "object has no attribute 'get'")
  end.

(** [str(n)] for an [int]. *)
Definition str_of_int (n : Z) : string := NilZero.string_of_int (Z.to_int n).

(** [l[:n]] on a list: a negative [n] counts from the end. *)
Definition slice_to {A} (n : Z) (l : list A) : list A :=
  if 0 <=? n then take (Z.to_nat n) l
  else take (Z.to_nat (Z.of_nat (length l) + n)) l.

(** The elements that [for item in x[:n]] visits.  A list gives its
    elements, a string its characters; the other values cannot be sliced
    (a [dict] raises [TypeError] before Python 3.12 and [KeyError] from
    3.12 on: the class is not used below). *)
Definition py_slice_iter (x : json) (n : Z) : Exc (list json) :=
  match x with
  | JArr l => Ok (slice_to n l)
  | JStr s =>
      Ok ((λ c, JStr (String c "")) <$> slice_to n (list_ascii_of_string s))
  | _ => Raise (TypeError "object is not subscriptable")
  end.

(** [str.isspace] on one code point below 256. *)
Definition is_py_space (c : ascii) : bool :=
  let n := N_of_ascii c in
  ((9 <=? n) && (n <=? 13) || (28 <=? n) && (n <=? 32)
   || (n =? 133) || (n =? 160))%N.

Fixpoint lstrip (s : string) : string :=
  match s with
  | "" => ""
  | String c s' => if is_py_space c then lstrip s' else s
  end.

Definition rstrip (s : string) : string := String.rev (lstrip (String.rev s)).

(** [s.strip()] *)
Definition strip (s : string) : string := rstrip (lstrip s).

(** ["".join(parts)] *)
Definition join_empty (parts : list string) : string :=
  foldr String.append "" parts.

(** ** The vector index *)

(** An embedding, one row of what the embedding model returns. *)
Definition Vec : Type := list float.

(** A FAISS index object, as far as the program uses one: [ntotal] and
    [search].  [search q k] stands for [index.search(q, k)] on a one-row
    query; it gives row 0 of the distance array and row 0 of the index
    array, or raises. *)
Record Index := {
  ntotal : Z;
  search : Vec → Z → Exc (list float * list Z)
}.

(** The contract of the library's search: the row it returns for [k]
    requested neighbours has at most [k] entries (FAISS returns exactly
    [k], padding with index [-1], and refuses [k <= 0]). *)
Definition search_at_most_k (ix : Index) : Prop :=
  ∀ q k ds ids, search ix q k = Ok (ds, ids) → Z.of_nat (length ids) ≤ k.

(** ** The file system *)

(** What a file holds, as far as the program's readers can tell. *)
Inductive content : Type :=
| JsonText (j : json)      (* the text [json.dump] writes for [j]; [json.load] gives [j] back *)
| FaissBlob (ix : Index)   (* what [faiss.write_index] writes for [ix] *)
| PickleBlob (docs : list (string * string))   (* a pickled docstore *)
| OtherData (raw : string). (* anything else: [json.load] and [faiss.read_index] reject it *)

Inductive node : Type :=
| Dir
| File (c : content).

(** Paths are the strings the program passes to [open] and [os.path]. *)
Definition path_exists (fs : gmap string node) (p : string) : bool :=
  bool_decide (is_Some (fs !! p)).

(** [os.path.join(a, b)] for a relative [b] and a non-empty [a] (POSIX). *)
Definition path_join (a b : string) : string := a +:+ "/" +:+ b.

(** [with open(p, "r", encoding="utf-8") as f: json.load(f)] *)
Definition read_json (fs : gmap string node) (p : string) : Exc json :=
  match fs !! p with
  | None => Raise (FileNotFoundError p)
  | Some Dir => Raise (IsADirectoryError p)
  | Some (File (JsonText j)) => Ok j
  | Some (File _) => Raise (JSONDecodeError p)
  end.

(** The directories above [p]: for ["a/b/c"], ["a"] and ["a/b"]. *)
Fixpoint parents_go (seen : string) (s : string) : list string :=
  match s with
  | "" => []
  | String c s' =>
      if Ascii.eqb c "/"
      then String.rev seen :: parents_go (String c seen) s'
      else parents_go (String c seen) s'
  end.
Definition parents (p : string) : list string := parents_go "" p.

(** The directory a file lies in: for ["a/b/c"], ["a/b"]; none for a
    bare name, which lies in the working directory. *)
Definition parent (p : string) : option string := last (parents p).

(** Resolving the directory of [p] before a file is created in it: it has
    to be there, and to be a directory. *)
Definition check_parent (fs : gmap string node) (p : string) : Exc unit :=
  match parent p with
  | None => Ok ()
  | Some d =>
      match fs !! d with
      | Some Dir => Ok ()
      | Some (File _) => Raise (NotADirectoryError p)
      | None => Raise (FileNotFoundError p)
      end
  end.

(** Opening [p] for writing and writing [c]: the file is created or
    replaced.  The open fails when the directory of [p] is missing or is a
    file, and when [p] itself is a directory. *)
Definition write_file (fs : gmap string node) (p : string) (c : content)
  : Exc unit * gmap string node :=
  match check_parent fs p with
  | Raise e => (Raise e, fs)
  | Ok _ =>
      match fs !! p with
      | Some Dir => (Raise (IsADirectoryError p), fs)
      | _ => (Ok (), <[p := File c]> fs)
      end
  end.

(** [with open(p, "w", encoding="utf-8") as f: json.dump(j, f, ...)] *)
Definition write_json (fs : gmap string node) (p : string) (j : json)
  : Exc unit * gmap string node :=
  write_file fs p (JsonText j).

(** Sequencing of two steps on the file system: an exception of the first
    ends the run, with the file system as the first step left it. *)
Definition and_then {A B S} (m : Exc A * S) (k : A → S → Exc B * S)
  : Exc B * S :=
  match m with
  | (Ok a, s) => k a s
  | (Raise e, s) => (Raise e, s)
  end.

(** [faiss.read_index(p)] *)
Definition read_index (fs : gmap string node) (p : string) : Exc Index :=
  match fs !! p with
  | Some (File (FaissBlob ix)) => Ok ix
  | _ => Raise (RuntimeError p)
  end.

(** One directory of a [makedirs]: kept when it is there, created when
    nothing is, refused when a file has the name. *)
Definition ensure_dir (p : string) (fs : gmap string node)
  : Exc unit * gmap string node :=
  match fs !! p with
  | Some (File _) => (Raise (FileExistsError p), fs)
  | _ => (Ok (), <[p := Dir]> fs)
  end.

(** [os.makedirs(p, exist_ok=True)], also [Path(p).mkdir(parents=True,
    exist_ok=True)]: the directories made before a failure stay. *)
Definition makedirs (p : string) (fs : gmap string node)
  : Exc unit * gmap string node :=
  foldl (λ acc d, and_then acc (λ _ fs', ensure_dir d fs'))
        (Ok (), fs) (parents p ++ [p]).

(** * tools_adk.py *)

Module Tools.

Definition KB_DIR : string := "data".
Definition KB_INDEX_PATH : string := path_join KB_DIR "knowledge_base.faiss".
Definition KB_TEXTS_PATH : string := path_join KB_DIR "knowledge_base_texts.json".
Definition PREFS_PATH : string := path_join KB_DIR "user_prefs.json".

(** ** Import time: loading the knowledge base and the preference file *)

(** [faiss.IndexFlatL2(dim)]: a new index holds no vector; how it answers
    a search is the library's business. *)
Definition IndexFlatL2
    (empty_search : Vec → Z → Exc (list float * list Z)) : Index :=
  {| ntotal := 0; search := empty_search |}.

(** Lines 20-33: the values given to the globals [kb_index] and
    [kb_texts].  The texts are whatever the JSON file holds. *)
Definition load_knowledge_base
    (empty_search : Vec → Z → Exc (list float * list Z))
    (fs : gmap string node) : Exc (Index * json) :=
  if path_exists fs KB_INDEX_PATH && path_exists fs KB_TEXTS_PATH then
    ix ← read_index fs KB_INDEX_PATH;
    texts ← read_json fs KB_TEXTS_PATH;
    Ok (ix, texts)
  else
    Ok (IndexFlatL2 empty_search, JArr []).

(** Lines 35-41: the preference file is created when it is missing. *)
Definition init_preferences (fs : gmap string node)
  : Exc unit * gmap string node :=
  if negb (path_exists fs PREFS_PATH) then
    and_then (makedirs KB_DIR fs) (λ _ fs1,
      write_json fs1 PREFS_PATH (JObj [("preferences", JArr [])]))
  else (Ok (), fs).

(** ** [kb_search] *)

(** The module globals the search reads, typed as the source annotates
    them ([kb_texts: List[str]]). *)
Record KnowledgeBase := {
  kb_index : option Index;   (* [None] is Python's [None] *)
  kb_texts : list string
}.

Record KbHit := {
  hit_text : string;
  hit_score : float;
  hit_index : Z
}.

Record KbResult := {
  kb_query : string;
  kb_results : list KbHit;
  kb_message : option string
}.

(** The [for dist, idx in zip(...)] loop. *)
Fixpoint kb_collect (texts : list string) (pairs : list (float * Z))
  : list KbHit :=
  match pairs with
  | [] => []
  | (dist, idx) :: rest =>
      if (idx <? 0) || (idx >=? Z.of_nat (length texts))
      then kb_collect texts rest
      else
        match texts !! Z.to_nat idx with
        | Some t =>
            {| hit_text := t; hit_score := dist; hit_index := idx |}
              :: kb_collect texts rest
        | None => kb_collect texts rest   (* not reached: idx is in range *)
        end
  end.

Section KbSearch.
(** [embed_text], the sentence-embedding model applied to one string. *)
Variable embed_text : string → Vec.

Definition kb_search (kb : KnowledgeBase) (query : string) (top_k : Z)
  : Exc KbResult :=
  match kb_index kb with
  | None =>
      Ok {| kb_query := query; kb_results := [];
            kb_message := Some "Knowledge base is empty." |}
  | Some ix =>
      if (ntotal ix =? 0) || bool_decide (kb_texts kb = []) then
        Ok {| kb_query := query; kb_results := [];
              kb_message := Some "Knowledge base is empty." |}
      else
        let q_vec := embed_text query in
        '(distances, indices) ← search ix q_vec top_k;
        let results := kb_collect (kb_texts kb) (zip distances indices) in
        Ok {| kb_query := query; kb_results := results;
              kb_message := None |}
  end.
End KbSearch.

(** ** [web_search] and [search_flight_price] *)

(** The [params] dictionary of the GET request. *)
Record Params := {
  p_key : string;
  p_cx : string;
  p_q : string;
  p_num : Z
}.

Record Request := {
  req_url : string;
  req_params : Params;
  req_timeout : Z
}.

(** A [requests] response: [status_code], [text], and what [resp.json()]
    gives. *)
Record Response := {
  status_code : Z;
  resp_text : string;
  resp_json : Exc json
}.

(** What the two search tools see of the outside: the process environment,
    the variables of the [.env] file, and the network. *)
Record World := {
  environ : gmap string string;
  dotenv_file : gmap string string;
  requests_get : Request → Exc Response
}.

(** [load_dotenv()]: the variables of the file are added to the
    environment, a variable already set keeps its value. *)
Definition load_dotenv (w : World) : gmap string string :=
  environ w ∪ dotenv_file w.

(** [not s] for the result of [os.getenv]. *)
Definition py_not (s : option string) : bool :=
  match s with
  | None => true
  | Some v => bool_decide (v = "")
  end.

Record SearchHit := {
  sh_title : json;
  sh_snippet : json;
  sh_url : json
}.

(** The [for item in items[:max_results]] loop, on the items visited. *)
Fixpoint collect_items (items : list json) : Exc (list SearchHit) :=
  match items with
  | [] => Ok []
  | item :: rest =>
      title ← py_get item "title" (JStr "");
      snippet ← py_get item "snippet" (JStr "");
      url ← py_get item "link" (JStr "");
      hits ← collect_items rest;
      Ok ({| sh_title := title; sh_snippet := snippet; sh_url := url |} :: hits)
  end.

Record WebResult := {
  ws_query : string;
  ws_results : list SearchHit;
  ws_error : option string;
  ws_source : string
}.

Definition web_search (w : World) (query : string) (max_results : Z)
  : Exc WebResult :=
  let env := load_dotenv w in
  let api_key := env !! "CUSTOM_SEARCH_API_KEY" in
  let cx := env !! "CUSTOM_SEARCH_CX" in
  if py_not api_key || py_not cx then
    Ok {| ws_query := query; ws_results := [];
          ws_error := Some "Missing CUSTOM_SEARCH_API_KEY or CUSTOM_SEARCH_CX in environment.";
          ws_source := "google_custom_search" |}
  else
    let params := {| p_key := default "" api_key; p_cx := default "" cx;
                     p_q := query; p_num := max_results |} in
    match requests_get w {| req_url := "https://www.googleapis.com/customsearch/v1";
                            req_params := params; req_timeout := 10 |} with
    | Raise e =>
        Ok {| ws_query := query; ws_results := [];
              ws_error := Some ("Request error: " +:+ exn_str e);
              ws_source := "google_custom_search" |}
    | Ok resp =>
        if negb (status_code resp =? 200) then
          Ok {| ws_query := query; ws_results := [];
                ws_error := Some ("HTTP " +:+ str_of_int (status_code resp)
                                  +:+ ": " +:+ resp_text resp);
                ws_source := "google_custom_search" |}
        else
          data ← resp_json resp;
          items ← py_get data "items" (JArr []);
          visited ← py_slice_iter items max_results;
          results ← collect_items visited;
          Ok {| ws_query := query; ws_results := results;
                ws_error := None;
                ws_source := "google_custom_search" |}
    end.

Record FlightResult := {
  fl_origin : string;
  fl_destination : string;
  fl_date : string;
  fl_results : list SearchHit;
  fl_error : option string;
  fl_source : string
}.

Definition search_flight_price (w : World) (origin destination date : string)
    (max_results : Z) : Exc FlightResult :=
  let env := load_dotenv w in
  let api_key := env !! "CUSTOM_SEARCH_API_KEY" in
  let cx := env !! "CUSTOM_SEARCH_CX" in
  if py_not api_key || py_not cx then
    Ok {| fl_origin := origin; fl_destination := destination; fl_date := date;
          fl_results := [];
          fl_error := Some "Missing CUSTOM_SEARCH_API_KEY or CUSTOM_SEARCH_CX in environment.";
          fl_source := "google_custom_search" |}
  else
    let query := origin +:+ " to " +:+ destination +:+ " flight " +:+ date
                 +:+ " price" in
    let params := {| p_key := default "" api_key; p_cx := default "" cx;
                     p_q := query; p_num := max_results |} in
    match requests_get w {| req_url := "https://www.googleapis.com/customsearch/v1";
                            req_params := params; req_timeout := 10 |} with
    | Raise e =>
        Ok {| fl_origin := origin; fl_destination := destination;
              fl_date := date; fl_results := [];
              fl_error := Some ("Request error: " +:+ exn_str e);
              fl_source := "google_custom_search" |}
    | Ok resp =>
        if negb (status_code resp =? 200) then
          Ok {| fl_origin := origin; fl_destination := destination;
                fl_date := date; fl_results := [];
                fl_error := Some ("HTTP " +:+ str_of_int (status_code resp)
                                  +:+ ": " +:+ resp_text resp);
                fl_source := "google_custom_search" |}
        else
          data ← resp_json resp;
          items ← py_get data "items" (JArr []);
          visited ← py_slice_iter items max_results;
          results ← collect_items visited;
          Ok {| fl_origin := origin; fl_destination := destination;
                fl_date := date; fl_results := results;
                fl_error := None;
                fl_source := "google_custom_search" |}
    end.

(** ** [get_weather] *)

Record Weather := {
  w_location : string;
  w_date : string;
  w_summary : string;
  w_temperature_celsius : float;
  w_precipitation_chance : float;
  w_source : string
}.

Definition get_weather (location : string) (date : string) : Weather :=
  {| w_location := location;
     w_date := date;
     w_summary := "Partly cloudy with mild temperatures.";
     w_temperature_celsius := 24.0%float;
     w_precipitation_chance := 0x1.999999999999ap-3%float;   (* 0.2 *)
     w_source := "mock_weather_service" |}.

(** ** [save_preference] and [load_preferences] *)

Record SaveResult := {
  sr_status : string;
  sr_saved_preference : string;
  sr_total_preferences : Z
}.

Definition save_preference (preference : string) (fs : gmap string node)
  : Exc SaveResult * gmap string node :=
  let data :=
    match read_json fs PREFS_PATH with
    | Ok j => j
    | Raise _ => JObj [("preferences", JArr [])]
    end in
  match data with
  | JObj d =>
      match dict_get "preferences" (JArr []) d with
      | JArr prefs =>
          let prefs := prefs ++ [JStr preference] in
          let data := JObj (dict_set "preferences" (JArr prefs) d) in
          match write_json fs PREFS_PATH data with
          | (Ok _, fs') =>
              (Ok {| sr_status := "ok";
                     sr_saved_preference := preference;
                     sr_total_preferences := Z.of_nat (length prefs) |}, fs')
          | (Raise e, fs') => (Raise e, fs')
          end
      | _ => (Raise (AttributeError "object has no attribute 'append'"), fs)
      end
  | _ => (Raise (AttributeError "object has no attribute 'get'"), fs)
  end.

Definition load_preferences (fs : gmap string node) : Exc json :=
  try_except
    (data ← read_json fs PREFS_PATH;
     py_get data "preferences" (JArr []))
    (λ _, Ok (JArr [])).

End Tools.

(** * build_rag.py *)

Module BuildRag.

Definition KNOWLEDGE_BASE_PATH : string := "data/knowledge_base.faiss".
Definition USER_PREFS_PATH : string := "data/user_prefs.faiss".

(** An input document, [{"content": ..., "source": ...}]. *)
Record Doc := {
  doc_content : string;
  doc_source : string
}.

(** [{"text": ..., "source": ...}] *)
Record Chunk := {
  chunk_text : string;
  chunk_source : string
}.

(** A LangChain [Document]. *)
Record LcDocument := {
  page_content : string;
  metadata_source : string
}.

(** A LangChain FAISS vector store: its index and its docstore. *)
Record VectorStore := {
  vs_index : Index;
  vs_docstore : list LcDocument
}.

(** LangChain's [FAISS.save_local(folder_path)], with its default index
    name: the folder is created, with the directories above it, and two
    files are written inside it, [index.faiss] by [faiss.write_index] and
    [index.pkl] by [pickle.dump] of the docstore. *)
Definition save_local (vector_store : VectorStore) (folder_path : string)
    (fs : gmap string node) : Exc unit * gmap string node :=
  and_then (makedirs folder_path fs) (λ _ fs1,
  and_then (write_file fs1 (path_join folder_path "index.faiss")
                       (FaissBlob (vs_index vector_store))) (λ _ fs2,
  write_file fs2 (path_join folder_path "index.pkl")
             (PickleBlob ((λ d, (page_content d, metadata_source d))
                            <$> vs_docstore vector_store)))).

Section Build.
(** [RecursiveCharacterTextSplitter(chunk_size=1000,
    chunk_overlap=100).split_text] *)
Variable split_text : string → list string.
(** The embedding model object, and [FAISS.from_documents]. *)
Variable Embeddings : Type.
Variable from_documents : list LcDocument → Embeddings → Exc VectorStore.

Definition create_vector_store (documents : list Doc)
    (embeddings_model : Embeddings) (file_path : string)
    (fs : gmap string node) : Exc unit * gmap string node :=
  let all_chunks :=
    documents ≫= (λ doc,
      (λ chunk, {| chunk_text := chunk; chunk_source := doc_source doc |})
        <$> split_text (doc_content doc)) in
  match all_chunks with
  | [] => (Ok (), fs)
  | _ :: _ =>
      let lc_documents :=
        (λ chunk, {| page_content := chunk_text chunk;
                     metadata_source := chunk_source chunk |}) <$> all_chunks in
      match from_documents lc_documents embeddings_model with
      | Raise e => (Raise e, fs)
      | Ok vector_store => save_local vector_store file_path fs
      end
  end.

(** The module constant [generic_travel_data] (three documents; their text
    is not reproduced here) and the model [main] loads. *)
Variable generic_travel_data : list Doc.
Variable embeddings : Embeddings.

Definition main (fs : gmap string node) : Exc unit * gmap string node :=
  and_then (makedirs "data" fs) (λ _ fs1,
  let knowledge_docs := generic_travel_data in
  and_then (create_vector_store knowledge_docs embeddings
                                KNOWLEDGE_BASE_PATH fs1) (λ _ fs2,
  let user_pref_docs :=
    [ {| doc_content := "This is a placeholder for user preferences.";
         doc_source := "system_init" |} ] in
  create_vector_store user_pref_docs embeddings USER_PREFS_PATH fs2)).
End Build.

End BuildRag.

(** * main_adk.py *)

Module Main.

Record ChatRequest := {
  user_id : string;
  message : string
}.

(** [getattr(part, "text", None)] *)
Record Part := { part_text : option string }.

Record Content := {
  role : string;
  parts : option (list Part)
}.

Record Event := { event_content : option Content }.

(** One run of the asynchronous generator [runner.run_async(...)]: the
    events it yields, and the exception that ends it when one does. *)
Record Run := {
  run_events : list Event;
  run_failure : option exn
}.

Record ChatResponse := {
  resp_user_id : string;
  response : string
}.

(** The texts one event adds to [text_parts]. *)
Definition part_texts (ps : list Part) : list string :=
  omap (λ p, match part_text p with
             | Some t => if bool_decide (t = "") then None else Some t
             | None => None
             end) ps.

Definition event_texts (event : Event) : list string :=
  match event_content event with
  | Some c => match parts c with
              | Some ps => part_texts ps
              | None => []
              end
  | None => []
  end.

(** [text_parts] after the whole [async for] loop. *)
Definition collect_text (events : list Event) : list string :=
  events ≫= event_texts.

Section Server.
(** The [InMemoryRunner]: its state, its [app_name], the session service's
    [create_session] (giving [session.id]) and [run_async]. *)
Variable Runner : Type.
Variable app_name : string.
Variable create_session : string → string → Runner → Exc string * Runner.
Variable run_async : string → string → Content → Runner → Run * Runner.

(** The process state: the global [user_sessions], the runner, and (not in
    the source) the log of the sessions [create_session] has returned,
    oldest first, as a counting stub would keep it. *)
Record Server := {
  user_sessions : gmap string string;
  runner : Runner;
  created : list (string * string)
}.

Definition get_or_create_session_id (user_id : string) (s : Server)
  : Exc string * Server :=
  match user_sessions s !! user_id with
  | Some session_id => (Ok session_id, s)
  | None =>
      match create_session app_name user_id (runner s) with
      | (Raise e, r) =>
          (Raise e, {| user_sessions := user_sessions s; runner := r;
                       created := created s |})
      | (Ok session_id, r) =>
          (Ok session_id,
           {| user_sessions := <[user_id := session_id]> (user_sessions s);
              runner := r;
              created := created s ++ [(user_id, session_id)] |})
      end
  end.

Definition chat_endpoint (request : ChatRequest) (s : Server)
  : Exc ChatResponse * Server :=
  and_then (get_or_create_session_id (user_id request) s) (λ session_id s1,
  let user_message :=
    {| role := "user";
       parts := Some [ {| part_text := Some (message request) |} ] |} in
  let '(run, r) := run_async (user_id request) session_id user_message
                             (runner s1) in
  let s2 := {| user_sessions := user_sessions s1; runner := r;
               created := created s1 |} in
  match run_failure run with
  | Some e =>
      (Ok {| resp_user_id := user_id request;
             response := "Sorry, I encountered an error: " +:+ exn_str e |},
       s2)
  | None =>
      let final_text := strip (join_empty (collect_text (run_events run))) in
      let final_text :=
        if bool_decide (final_text = "")
        then "Sorry, I could not generate a response."
        else final_text in
      (Ok {| resp_user_id := user_id request; response := final_text |}, s2)
  end).
End Server.

Arguments user_sessions {Runner} s.
Arguments runner {Runner} s.
Arguments created {Runner} s.
Arguments get_or_create_session_id {Runner} app_name create_session user_id s.
Arguments chat_endpoint {Runner} app_name create_session run_async request s.

End Main.

(* ===================================================================== *)
(** * Vocabulary of the properties *)
(* ===================================================================== *)

Import Tools.

(** ** Knowledge-base search *)

(** A returned neighbour whose index is inside the text list. *)
Definition in_text_range (texts : list string) (p : float * Z) : Prop :=
  0 ≤ p.2 < Z.of_nat (length texts).

#[global] Instance in_text_range_dec texts p : Decision (in_text_range texts p).
Proof. unfold in_text_range. apply _. Defined.

Definition hit_pair (h : KbHit) : float * Z := (hit_score h, hit_index h).

(** A two-chunk knowledge base whose search, asked for three neighbours,
    answers with the indices [1], [7] and [-1]. *)
Definition demo_index : Index :=
  {| ntotal := 2;
     search := λ _ k,
       if k =? 3 then Ok ([0.5%float; 1.5%float; 2.5%float], [1; 7; -1])
       else Raise (Exn "AssertionError" "k > 0") |}.

Definition demo_kb : KnowledgeBase :=
  {| kb_index := Some demo_index; kb_texts := ["alpha"; "beta"] |}.

(** ** The search tools *)

(** [os.getenv] gave nothing usable: the variable is absent or empty. *)
Definition unset (v : option string) : Prop := v = None ∨ v = Some "".

(** The GET request both tools send. *)
Definition api_request (key cx q : string) (n : Z) : Request :=
  {| req_url := "https://www.googleapis.com/customsearch/v1";
     req_params := {| p_key := key; p_cx := cx; p_q := q; p_num := n |};
     req_timeout := 10 |}.

(** The query [search_flight_price] formats. *)
Definition flight_query (origin destination date : string) : string :=
  origin +:+ " to " +:+ destination +:+ " flight " +:+ date +:+ " price".

(** The three failure modes of a search for [q] with cap [n]: a credential
    is missing, the GET raises, the response is not a 200. *)
Inductive search_failure (w : World) (q : string) (n : Z) : Prop :=
| missing_credentials :
    unset (load_dotenv w !! "CUSTOM_SEARCH_API_KEY")
    ∨ unset (load_dotenv w !! "CUSTOM_SEARCH_CX") →
    search_failure w q n
| transport_error key cx e :
    load_dotenv w !! "CUSTOM_SEARCH_API_KEY" = Some key → key ≠ "" →
    load_dotenv w !! "CUSTOM_SEARCH_CX" = Some cx → cx ≠ "" →
    requests_get w (api_request key cx q n) = Raise e →
    search_failure w q n
| bad_status key cx resp :
    load_dotenv w !! "CUSTOM_SEARCH_API_KEY" = Some key → key ≠ "" →
    load_dotenv w !! "CUSTOM_SEARCH_CX" = Some cx → cx ≠ "" →
    requests_get w (api_request key cx q n) = Ok resp →
    status_code resp ≠ 200 →
    search_failure w q n.

(** A world with both credentials whose network answers every request
    with a 503. *)
Definition demo_world_503 : World :=
  {| environ := {[ "CUSTOM_SEARCH_API_KEY" := "k" ]};
     dotenv_file := {[ "CUSTOM_SEARCH_CX" := "c" ]};
     requests_get := λ _, Ok {| status_code := 503;
                                resp_text := "unavailable";
                                resp_json := Raise (JSONDecodeError "body") |} |}.

(** A world with both credentials whose network answers with two items. *)
Definition demo_world_200 : World :=
  {| environ := {[ "CUSTOM_SEARCH_API_KEY" := "k" ]};
     dotenv_file := {[ "CUSTOM_SEARCH_CX" := "c" ]};
     requests_get := λ _,
       Ok {| status_code := 200;
             resp_text := "";
             resp_json :=
               Ok (JObj [("items",
                          JArr [JObj [("title", JStr "A"); ("link", JStr "u")];
                                JObj [("snippet", JStr "b")]])]) |} |}.

(** ** The preference store *)

(** The states of the preference file from which [save_preference] can
    append: the file is absent or does not hold JSON (the read fails and
    the default document is taken), or it holds an object whose
    ["preferences"] entry is absent or a list. *)
Definition prefs_store_ok (fs : gmap string node) : bool :=
  match fs !! PREFS_PATH with
  | None => true
  | Some Dir => false
  | Some (File (JsonText (JObj d))) =>
      match dict_lookup "preferences" d with
      | None | Some (JArr _) => true
      | Some _ => false
      end
  | Some (File (JsonText _)) => false
  | Some (File _) => true
  end.

(** Calls of [save_preference], one after the other, with what each
    returned. *)
Fixpoint save_all (xs : list string) (fs : gmap string node)
  : list (Exc SaveResult) * gmap string node :=
  match xs with
  | [] => ([], fs)
  | x :: xs' =>
      let '(r, fs1) := save_preference x fs in
      let '(rs, fs2) := save_all xs' fs1 in
      (r :: rs, fs2)
  end.

(** A preference file holding one preference and another key. *)
Definition demo_prefs_fs : gmap string node :=
  {[ PREFS_PATH :=
       File (JsonText (JObj [("owner", JStr "kk");
                             ("preferences", JArr [JStr "vegetarian"])])) ]}.

(** The [data] directory is there, as the import-time code leaves it. *)
Definition data_dir_exists (fs : gmap string node) : Prop :=
  fs !! KB_DIR = Some Dir.

(** The same file, in its directory. *)
Definition demo_prefs_disk : gmap string node :=
  <[ KB_DIR := Dir ]> demo_prefs_fs.

(** ** The chat server *)

Import Main.

(** The text of every part that has one, the empty strings included. *)
Definition all_fragments (events : list Event) : list string :=
  events ≫= (λ ev, match event_content ev with
                   | Some c => match parts c with
                               | Some ps => omap part_text ps
                               | None => []
                               end
                   | None => []
                   end).

(** The message [chat_endpoint] hands to the runner. *)
Definition user_content (request : ChatRequest) : Content :=
  {| role := "user";
     parts := Some [ {| part_text := Some (message request) |} ] |}.

Section ServerVocabulary.
Context {Runner : Type}.
Variable app_name : string.
Variable create_session : string → string → Runner → Exc string * Runner.
Variable run_async : string → string → Content → Runner → Run * Runner.

(** The server after a sequence of chat requests, handled one after the
    other. *)
Definition serve (requests : list ChatRequest) (s : Server Runner)
  : Server Runner :=
  foldl (λ s request,
           (chat_endpoint app_name create_session run_async request s).2)
        s requests.

(** The session map and the log of created sessions agree, and no user
    has two created sessions. *)
Definition sessions_consistent (s : Server Runner) : Prop :=
  NoDup (created s).*1
  ∧ ∀ u sid, user_sessions s !! u = Some sid ↔ (u, sid) ∈ created s.
End ServerVocabulary.

(** A runner that numbers its sessions and answers every message with
    two fragments, [" Hello"] and [" there. "]. *)
Definition demo_create_session (app user : string) (n : nat)
  : Exc string * nat :=
  (Ok (app +:+ "-" +:+ user +:+ "-" +:+ str_of_int (Z.of_nat n)), S n).

Definition demo_run_async (user session : string) (msg : Content) (n : nat)
  : Run * nat :=
  ({| run_events :=
        [ {| event_content := None |};
          {| event_content :=
               Some {| role := "model";
                       parts := Some [ {| part_text := Some " Hello" |};
                                       {| part_text := None |};
                                       {| part_text := Some " there. " |} ] |} |} ];
      run_failure := None |}, n).

Definition demo_server : Server nat :=
  {| user_sessions := ∅; runner := 0%nat; created := [] |}.

(** ** The offline build *)

Import BuildRag.

(** The paths [create_vector_store] can write under [file_path]. *)
Definition store_paths (file_path : string) : list string :=
  parents file_path
  ++ [file_path; path_join file_path "index.faiss";
      path_join file_path "index.pkl"].

(** A build with one short document, a splitter that keeps it whole and a
    vector store that counts its documents. *)
Definition demo_docs : list Doc :=
  [ {| doc_content := "Travel Tips for Foodies";
       doc_source := "foodie_travel_tips.txt" |} ].

Definition demo_empty_search (q : Vec) (k : Z) : Exc (list float * list Z) :=
  Raise (RuntimeError "search").

Definition demo_from_documents (docs : list LcDocument) (model : unit)
  : Exc VectorStore :=
  Ok {| vs_index := {| ntotal := Z.of_nat (length docs);
                       search := demo_empty_search |};
        vs_docstore := docs |}.

Definition demo_build (fs : gmap string node) : Exc unit * gmap string node :=
  main (λ s, [s]) unit demo_from_documents demo_docs () fs.

(* ===================================================================== *)
(** * Further vocabulary *)
(* ===================================================================== *)

(** ** The search tools, on a 200 *)

(** The record the search loop builds from one item that is an object. *)
Definition hit_of_item (item : pydict) : SearchHit :=
  {| sh_title := dict_get "title" (JStr "") item;
     sh_snippet := dict_get "snippet" (JStr "") item;
     sh_url := dict_get "link" (JStr "") item |}.

(** What both tools do with a 200 response: decode the body, take the
    items, visit the first [n] of them. *)
Definition decode_items (resp : Response) (n : Z) : Exc (list SearchHit) :=
  data ← resp_json resp;
  items ← py_get data "items" (JArr []);
  visited ← py_slice_iter items n;
  collect_items visited.

(** Both credentials are set and the GET for [q] with cap [n] is answered
    by [resp]. *)
Definition answered (w : World) (q : string) (n : Z) (resp : Response) : Prop :=
  ∃ key cx,
    load_dotenv w !! "CUSTOM_SEARCH_API_KEY" = Some key ∧ key ≠ ""
    ∧ load_dotenv w !! "CUSTOM_SEARCH_CX" = Some cx ∧ cx ≠ ""
    ∧ requests_get w (api_request key cx q n) = Ok resp.

(** A world with both credentials whose 200 answer is not JSON. *)
Definition demo_world_html : World :=
  {| environ := {[ "CUSTOM_SEARCH_API_KEY" := "k" ]};
     dotenv_file := {[ "CUSTOM_SEARCH_CX" := "c" ]};
     requests_get := λ _,
       Ok {| status_code := 200;
             resp_text := "<html>";
             resp_json := Raise (JSONDecodeError "Expecting value") |} |}.

Definition demo_response_200 : Response :=
  {| status_code := 200;
     resp_text := "";
     resp_json :=
       Ok (JObj [("items",
                  JArr [JObj [("title", JStr "A"); ("link", JStr "u")];
                        JObj [("snippet", JStr "b")]])]) |}.

(** ** The preference store and the import-time load *)

(** The document the import-time code and a failed read start from. *)
Definition empty_prefs_doc : json := JObj [("preferences", JArr [])].

(** A disk with a well-formed knowledge base of two chunks. *)
Definition demo_kb_fs : gmap string node :=
  {[ KB_INDEX_PATH := File (FaissBlob demo_index);
     KB_TEXTS_PATH := File (JsonText (JArr [JStr "alpha"; JStr "beta"])) ]}.

(** ** The chat server *)

(** A session service that is down. *)
Definition demo_failing_create (app user : string) (n : nat)
  : Exc string * nat :=
  (Raise (RuntimeError "session service down"), S n).

(** ** The offline build *)

(** The chunks [create_vector_store] collects, and the LangChain documents
    it hands to [FAISS.from_documents]. *)
Definition chunks_of (split_text : string → list string)
    (documents : list Doc) : list Chunk :=
  documents ≫= (λ doc,
    (λ chunk, {| chunk_text := chunk; chunk_source := doc_source doc |})
      <$> split_text (doc_content doc)).

Definition lc_documents_of (split_text : string → list string)
    (documents : list Doc) : list LcDocument :=
  (λ chunk, {| page_content := chunk_text chunk;
               metadata_source := chunk_source chunk |})
    <$> chunks_of split_text documents.

(** A store builder that fails. *)
Definition demo_failing_from_documents (docs : list LcDocument) (model : unit)
  : Exc VectorStore :=
  Raise (RuntimeError "embedding failed").

(* ===================================================================== *)
(** * Properties *)
(* ===================================================================== *)

(** ** Knowledge-base search *)

Lemma kb_collect_pairs texts pairs :
  hit_pair <$> kb_collect texts pairs = filter (in_text_range texts) pairs.
Proof.
  induction pairs as [|[dist idx] rest IH]; [done|].
  cbn [kb_collect].
  destruct ((idx <? 0) || (idx >=? Z.of_nat (length texts))) eqn:Hout.
  - rewrite filter_cons_False; [exact IH|].
    unfold in_text_range; cbn. apply orb_true_iff in Hout as [H|H]; lia.
  - apply orb_false_iff in Hout as [H1 H2].
    assert (Hin : 0 ≤ idx < Z.of_nat (length texts)) by lia.
    destruct (lookup_lt_is_Some_2 texts (Z.to_nat idx)) as [t Ht]; [lia|].
    rewrite Ht, filter_cons_True by exact Hin.
    cbn. by rewrite IH.
Qed.

Lemma kb_collect_verbatim texts pairs :
  Forall (λ h, 0 ≤ hit_index h < Z.of_nat (length texts)
               ∧ texts !! Z.to_nat (hit_index h) = Some (hit_text h))
         (kb_collect texts pairs).
Proof.
  induction pairs as [|[dist idx] rest IH]; [constructor|].
  cbn [kb_collect].
  destruct ((idx <? 0) || (idx >=? Z.of_nat (length texts))) eqn:Hout; [done|].
  apply orb_false_iff in Hout as [H1 H2].
  destruct (texts !! Z.to_nat idx) as [t|] eqn:Ht; [|done].
  constructor; [|done]. cbn. split; [lia|done].
Qed.

Lemma kb_collect_length texts pairs :
  (length (kb_collect texts pairs) ≤ length pairs)%nat.
Proof.
  induction pairs as [|[dist idx] rest IH]; [done|].
  cbn [kb_collect].
  destruct ((idx <? 0) || (idx >=? Z.of_nat (length texts))); [cbn; lia|].
  destruct (texts !! Z.to_nat idx); cbn; lia.
Qed.

Lemma filter_empty_texts (pairs : list (float * Z)) :
  filter (in_text_range []) pairs = [].
Proof.
  induction pairs as [|p rest IH]; [done|].
  rewrite filter_cons_False; [exact IH|].
  unfold in_text_range. cbn. lia.
Qed.

(** C1.  With an index that is present and non-empty, and a library search
    that returns at most [k] neighbours for a request of [k], [kb_search]
    returns normally whenever the library search does; it returns at most
    [k] results; every result carries an index inside the text list and the
    text stored at that index, verbatim; and the results are exactly the
    returned neighbours whose index is inside the text list, in order: a
    neighbour whose index is negative or past the end is skipped. *)
Theorem kb_search_at_most_k_verbatim
    (embed_text : string → Vec) (kb : KnowledgeBase) (ix : Index)
    (query : string) (k : Z) (ds : list float) (ids : list Z) :
  kb_index kb = Some ix →
  ntotal ix ≠ 0 →
  search_at_most_k ix →
  search ix (embed_text query) k = Ok (ds, ids) →
  ∃ r, kb_search embed_text kb query k = Ok r
       ∧ kb_query r = query
       ∧ Z.of_nat (length (kb_results r)) ≤ k
       ∧ Forall (λ h, 0 ≤ hit_index h < Z.of_nat (length (kb_texts kb))
                      ∧ kb_texts kb !! Z.to_nat (hit_index h) = Some (hit_text h))
                (kb_results r)
       ∧ hit_pair <$> kb_results r
         = filter (in_text_range (kb_texts kb)) (zip ds ids).
Proof.
  intros Hix Hn Hk Hs.
  pose proof (Hk _ _ _ _ Hs) as Hlen.
  unfold kb_search. rewrite Hix.
  apply Z.eqb_neq in Hn. rewrite Hn. cbn [orb].
  case_bool_decide as Htexts.
  - eexists. split; [reflexivity|]. cbn. rewrite Htexts.
    repeat split; [lia|constructor|].
    symmetry. apply filter_empty_texts.
  - cbn. rewrite Hs. cbn. eexists. split; [reflexivity|]. cbn.
    repeat split.
    + pose proof (kb_collect_length (kb_texts kb) (zip ds ids)) as Hc.
      rewrite length_zip in Hc. lia.
    + apply kb_collect_verbatim.
    + apply kb_collect_pairs.
Qed.

Lemma demo_index_at_most_k : search_at_most_k demo_index.
Proof.
  intros q k ds ids. cbn. destruct (k =? 3) eqn:Hk; [|discriminate].
  intros [= <- <-]. apply Z.eqb_eq in Hk. subst k. cbn. lia.
Defined.

Lemma kb_search_at_most_k_verbatim_witness :
  ∃ r, kb_search (λ _, []) demo_kb "q" 3 = Ok r
       ∧ kb_query r = "q"
       ∧ Z.of_nat (length (kb_results r)) ≤ 3
       ∧ Forall (λ h, 0 ≤ hit_index h < Z.of_nat (length (kb_texts demo_kb))
                      ∧ kb_texts demo_kb !! Z.to_nat (hit_index h)
                        = Some (hit_text h))
                (kb_results r)
       ∧ hit_pair <$> kb_results r
         = filter (in_text_range (kb_texts demo_kb))
                  (zip [0.5%float; 1.5%float; 2.5%float] [1; 7; -1]).
Proof.
  apply (kb_search_at_most_k_verbatim (λ _, []) demo_kb demo_index "q" 3).
  - reflexivity.
  - cbn. lia.
  - exact demo_index_at_most_k.
  - reflexivity.
Defined.

(** The same search, evaluated: of the three neighbours [1], [7] and [-1]
    only the first is inside the two-element text list. *)
Example kb_search_demo :
  kb_search (λ _, []) demo_kb "q" 3
  = Ok {| kb_query := "q";
          kb_results := [ {| hit_text := "beta"; hit_score := 0.5%float;
                             hit_index := 1 |} ];
          kb_message := None |}.
Proof. reflexivity. Qed.

(** C3.  When the index is absent ([None]), holds no vector, or the text
    list is empty, [kb_search] returns normally, for every query and every
    [k]: an empty result list and the message "Knowledge base is empty."
    (the record has no error field).  The library search is not called. *)
Theorem kb_search_empty_kb
    (embed_text : string → Vec) (kb : KnowledgeBase) (query : string) (k : Z) :
  kb_index kb = None
  ∨ (∃ ix, kb_index kb = Some ix ∧ ntotal ix = 0)
  ∨ kb_texts kb = [] →
  kb_search embed_text kb query k
  = Ok {| kb_query := query; kb_results := [];
          kb_message := Some "Knowledge base is empty." |}.
Proof.
  intros H. unfold kb_search.
  destruct (kb_index kb) as [ix|] eqn:Hix; [|done].
  destruct H as [H|[(ix' & Hix' & Hn)|Ht]]; [done| |].
  - injection Hix' as <-. rewrite Hn. done.
  - rewrite Ht. rewrite bool_decide_eq_true_2 by done.
    by rewrite orb_true_r.
Qed.

Lemma kb_search_empty_kb_witness :
  kb_search (λ _, []) {| kb_index := None; kb_texts := ["alpha"] |} "q" 5
  = Ok {| kb_query := "q"; kb_results := [];
          kb_message := Some "Knowledge base is empty." |}.
Proof.
  apply (kb_search_empty_kb (λ _, [])
           {| kb_index := None; kb_texts := ["alpha"] |} "q" 5).
  left. reflexivity.
Defined.

(** ** Weather *)

(** C9, as stated, fails: the returned record is not one constant value,
    its [location] and [date] fields are the arguments. *)
Lemma get_weather_not_constant :
  ¬ (∀ location date location' date',
       get_weather location date = get_weather location' date').
Proof.
  intros H. specialize (H "Paris" "today" "Rome" "today"). discriminate H.
Qed.

(** C9, amended.  The forecast fields (summary, temperature, chance of
    precipitation, source) are the same hardcoded constants for every
    input; the [location] and [date] fields repeat the arguments. *)
Theorem get_weather_fixed_forecast (location date : string) :
  w_location (get_weather location date) = location
  ∧ w_date (get_weather location date) = date
  ∧ w_summary (get_weather location date)
    = "Partly cloudy with mild temperatures."
  ∧ w_temperature_celsius (get_weather location date) = 24.0%float
  ∧ w_precipitation_chance (get_weather location date)
    = 0x1.999999999999ap-3%float
  ∧ w_source (get_weather location date) = "mock_weather_service".
Proof. repeat split. Qed.

(** ** The search tools *)

Lemma py_not_unset v : py_not v = true ↔ unset v.
Proof.
  unfold py_not, unset. destruct v as [s|].
  - rewrite bool_decide_eq_true. split.
    + intros ->. by right.
    + intros [H|H]; congruence.
  - split; [by left|done].
Qed.

Lemma py_not_set s : s ≠ "" → py_not (Some s) = false.
Proof. intros H. cbn. by apply bool_decide_eq_false. Qed.

Lemma credentials_missing a b : unset a ∨ unset b → py_not a || py_not b = true.
Proof.
  intros [H%py_not_unset|H%py_not_unset]; rewrite H; [done|apply orb_true_r].
Qed.

(** C5.  For both search tools, each of the three failure modes (a missing
    or empty credential, an exception of the GET, a status other than 200)
    gives a normal return: a result whose results list is empty and whose
    error is a non-empty string. *)
Theorem search_failures_become_error_results (w : World) :
  (∀ q n, search_failure w q n →
     ∃ msg, msg ≠ ""
       ∧ web_search w q n
         = Ok {| ws_query := q; ws_results := []; ws_error := Some msg;
                 ws_source := "google_custom_search" |})
  ∧ (∀ origin destination date n,
       search_failure w (flight_query origin destination date) n →
       ∃ msg, msg ≠ ""
         ∧ search_flight_price w origin destination date n
           = Ok {| fl_origin := origin; fl_destination := destination;
                   fl_date := date; fl_results := [];
                   fl_error := Some msg;
                   fl_source := "google_custom_search" |}).
Proof.
  split.
  - intros q n [Hmiss | key cx e Hk Hk' Hc Hc' Hget
                      | key cx resp Hk Hk' Hc Hc' Hget Hst];
      unfold web_search.
    + rewrite (credentials_missing _ _ Hmiss). eexists. split; [|done]. done.
    + rewrite Hk, Hc, !py_not_set by done. cbn [orb default from_option id].
      fold (api_request key cx q n). rewrite Hget.
      eexists. split; [|done]. done.
    + rewrite Hk, Hc, !py_not_set by done. cbn [orb default from_option id].
      fold (api_request key cx q n). rewrite Hget.
      apply Z.eqb_neq in Hst. rewrite Hst. cbn [negb].
      eexists. split; [|done]. done.
  - intros origin destination date n
      [Hmiss | key cx e Hk Hk' Hc Hc' Hget
             | key cx resp Hk Hk' Hc Hc' Hget Hst];
      unfold search_flight_price.
    + rewrite (credentials_missing _ _ Hmiss). eexists. split; [|done]. done.
    + rewrite Hk, Hc, !py_not_set by done. cbn [orb default from_option id].
      fold (flight_query origin destination date).
      fold (api_request key cx (flight_query origin destination date) n).
      rewrite Hget. eexists. split; [|done]. done.
    + rewrite Hk, Hc, !py_not_set by done. cbn [orb default from_option id].
      fold (flight_query origin destination date).
      fold (api_request key cx (flight_query origin destination date) n).
      rewrite Hget. apply Z.eqb_neq in Hst. rewrite Hst. cbn [negb].
      eexists. split; [|done]. done.
Qed.

Lemma search_failures_become_error_results_witness :
  (∃ msg, msg ≠ ""
     ∧ web_search demo_world_503 "museums in Rome" 5
       = Ok {| ws_query := "museums in Rome"; ws_results := [];
               ws_error := Some msg; ws_source := "google_custom_search" |})
  ∧ (∃ msg, msg ≠ ""
       ∧ search_flight_price demo_world_503 "TPE" "NRT" "2025-01-02" 10
         = Ok {| fl_origin := "TPE"; fl_destination := "NRT";
                 fl_date := "2025-01-02"; fl_results := [];
                 fl_error := Some msg;
                 fl_source := "google_custom_search" |}).
Proof.
  split.
  - apply (proj1 (search_failures_become_error_results demo_world_503)).
    eapply (bad_status _ _ _ "k" "c"); [reflexivity|done|reflexivity|done| |];
      [reflexivity | cbn; lia].
  - apply (proj2 (search_failures_become_error_results demo_world_503)).
    eapply (bad_status _ _ _ "k" "c"); [reflexivity|done|reflexivity|done| |];
      [reflexivity | cbn; lia].
Defined.

(** The error text of a 503, evaluated. *)
Example web_search_503 :
  web_search demo_world_503 "museums in Rome" 5
  = Ok {| ws_query := "museums in Rome"; ws_results := [];
          ws_error := Some "HTTP 503: unavailable";
          ws_source := "google_custom_search" |}.
Proof. vm_compute. reflexivity. Qed.

(** C10.  In every world, [search_flight_price] and [web_search] called
    with the formatted query and the same cap end the same way: both raise
    the same exception, or both return, with the same results list, the
    same error field and the same source; the flight result carries the
    origin, the destination and the date, the web result the query. *)
Theorem search_flight_price_is_web_search
    (w : World) (origin destination date : string) (max_results : Z) :
  match search_flight_price w origin destination date max_results,
        web_search w (flight_query origin destination date) max_results with
  | Ok f, Ok s =>
      fl_results f = ws_results s
      ∧ fl_error f = ws_error s
      ∧ fl_source f = ws_source s
      ∧ fl_origin f = origin
      ∧ fl_destination f = destination
      ∧ fl_date f = date
      ∧ ws_query s = flight_query origin destination date
  | Raise e, Raise e' => e = e'
  | _, _ => False
  end.
Proof.
  unfold search_flight_price, web_search.
  fold (flight_query origin destination date).
  destruct (py_not _ || py_not _); [done|].
  destruct (requests_get w _) as [resp|e]; [|done].
  destruct (negb (status_code resp =? 200)); [done|].
  destruct (resp_json resp) as [data|e]; [|done]. cbn.
  destruct (py_get data "items" (JArr [])) as [items|e]; [|done]. cbn.
  destruct (py_slice_iter items max_results) as [visited|e]; [|done]. cbn.
  destruct (collect_items visited) as [results|e]; [|done]. cbn.
  done.
Qed.

(** On a 200 with two items both tools return the same two records. *)
Example web_search_200 :
  web_search demo_world_200 (flight_query "TPE" "NRT" "2025-01-02") 10
  = Ok {| ws_query := "TPE to NRT flight 2025-01-02 price";
          ws_results :=
            [ {| sh_title := JStr "A"; sh_snippet := JStr ""; sh_url := JStr "u" |};
              {| sh_title := JStr ""; sh_snippet := JStr "b"; sh_url := JStr "" |} ];
          ws_error := None;
          ws_source := "google_custom_search" |}.
Proof. vm_compute. reflexivity. Qed.

Example search_flight_price_200 :
  search_flight_price demo_world_200 "TPE" "NRT" "2025-01-02" 10
  = Ok {| fl_origin := "TPE"; fl_destination := "NRT"; fl_date := "2025-01-02";
          fl_results :=
            [ {| sh_title := JStr "A"; sh_snippet := JStr ""; sh_url := JStr "u" |};
              {| sh_title := JStr ""; sh_snippet := JStr "b"; sh_url := JStr "" |} ];
          fl_error := None;
          fl_source := "google_custom_search" |}.
Proof. vm_compute. reflexivity. Qed.

(** ** The preference store *)

Lemma dict_lookup_set k v d : dict_lookup k (dict_set k v d) = Some v.
Proof.
  induction d as [|[k' v'] d IH]; cbn.
  - by rewrite decide_True.
  - destruct (decide (k' = k)) as [->|Hne]; cbn.
    + by rewrite decide_True.
    + by rewrite decide_False.
Qed.

Lemma write_file_done fs p c fs' :
  write_file fs p c = (Ok (), fs') → fs' = <[p := File c]> fs.
Proof.
  unfold write_file. destruct (check_parent fs p); [|done].
  destruct (fs !! p) as [[|c']|]; by intros [= <-].
Qed.

Lemma read_after_write_json fs p j fs' :
  write_json fs p j = (Ok (), fs') → read_json fs' p = Ok j.
Proof.
  intros ->%write_file_done. unfold read_json. by rewrite lookup_insert_eq.
Qed.

Lemma prefs_parent : parent PREFS_PATH = Some KB_DIR.
Proof. reflexivity. Qed.

Lemma prefs_path_not_data : PREFS_PATH ≠ KB_DIR.
Proof. discriminate. Qed.

(** With the directory there and no directory in the way, the preference
    file is written. *)
Lemma write_prefs_ready fs j :
  data_dir_exists fs →
  fs !! PREFS_PATH ≠ Some Dir →
  write_json fs PREFS_PATH j
  = (Ok (), <[PREFS_PATH := File (JsonText j)]> fs).
Proof.
  intros Hdata Hdir. unfold write_json, write_file, check_parent.
  rewrite prefs_parent, Hdata.
  by destruct (fs !! PREFS_PATH) as [[|c]|].
Qed.

(** [load_preferences] in terms of the file: the stored entry when the
    file holds an object, the empty list otherwise. *)
Lemma load_preferences_cases fs :
  load_preferences fs
  = Ok match fs !! PREFS_PATH with
       | Some (File (JsonText (JObj d))) => dict_get "preferences" (JArr []) d
       | _ => JArr []
       end.
Proof.
  unfold load_preferences, read_json.
  destruct (fs !! PREFS_PATH) as [[|[j| | |]]|]; try done.
  by destruct j.
Qed.

(** One save from a good store: it returns, the count is the new length,
    the new string is appended to what was stored, and the store stays
    good. *)
Lemma save_preference_step x fs :
  data_dir_exists fs →
  prefs_store_ok fs = true →
  ∃ l fs',
    load_preferences fs = Ok (JArr l)
    ∧ save_preference x fs
      = (Ok {| sr_status := "ok"; sr_saved_preference := x;
               sr_total_preferences := Z.of_nat (length l) + 1 |}, fs')
    ∧ load_preferences fs' = Ok (JArr (l ++ [JStr x]))
    ∧ prefs_store_ok fs' = true
    ∧ data_dir_exists fs'.
Proof.
  intros Hdata Hok.
  assert (Hdoc : ∃ d l,
    match read_json fs PREFS_PATH with
    | Ok j => j | Raise _ => JObj [("preferences", JArr [])] end = JObj d
    ∧ dict_get "preferences" (JArr []) d = JArr l
    ∧ load_preferences fs = Ok (JArr l)
    ∧ fs !! PREFS_PATH ≠ Some Dir).
  { rewrite load_preferences_cases. unfold prefs_store_ok, read_json in *.
    destruct (fs !! PREFS_PATH) as [[|[j| | |]]|]; try done;
      try (by exists [("preferences", JArr [])], []).
    destruct j as [| | | | | |d]; try done.
    unfold dict_get.
    destruct (dict_lookup "preferences" d) as [[| | | | |l0|]|] eqn:Hd;
      try done.
    - exists d, l0. by rewrite Hd.
    - exists d, []. by rewrite Hd. }
  destruct Hdoc as (d & l & Hd & Hl & Hload & Hdir).
  set (data' := JObj (dict_set "preferences" (JArr (l ++ [JStr x])) d)).
  exists l, (<[PREFS_PATH := File (JsonText data')]> fs).
  pose proof (write_prefs_ready fs data' Hdata Hdir) as Hw.
  split; [done|]. split; [|split; [|split]].
  - unfold save_preference. rewrite Hd, Hl. fold data'. rewrite Hw.
    do 3 f_equal. rewrite length_app. cbn. lia.
  - rewrite load_preferences_cases, lookup_insert_eq. subst data'.
    unfold dict_get. by rewrite dict_lookup_set.
  - unfold prefs_store_ok. rewrite lookup_insert_eq. subst data'.
    cbn match. by rewrite dict_lookup_set.
  - unfold data_dir_exists.
    by rewrite lookup_insert_ne by exact prefs_path_not_data.
Qed.

Lemma save_all_counts xs : ∀ fs l i,
  data_dir_exists fs →
  prefs_store_ok fs = true →
  load_preferences fs = Ok (JArr l) →
  (i < length xs)%nat →
  ∃ r, (save_all xs fs).1 !! i = Some (Ok r)
       ∧ sr_total_preferences r = Z.of_nat (length l) + Z.of_nat i + 1.
Proof.
  induction xs as [|x xs IH]; intros fs l i Hdata Hok Hload Hi;
    [cbn in Hi; lia|].
  destruct (save_preference_step x fs Hdata Hok)
    as (l' & fs' & Hl' & Hsave & Hload' & Hok' & Hdata').
  assert (l' = l) as -> by congruence.
  cbn [save_all]. rewrite Hsave.
  destruct (save_all xs fs') as [rs fs2] eqn:Hrest.
  destruct i as [|i].
  - cbn. eexists. split; [done|]. cbn. lia.
  - cbn in Hi.
    destruct (IH fs' (l ++ [JStr x]) i Hdata' Hok' Hload' ltac:(lia))
      as (r & Hr & Hn).
    rewrite Hrest in Hr. exists r. split; [exact Hr|].
    rewrite Hn, length_app. cbn. lia.
Qed.

(** The import-time code leaves the directory and an empty, good store
    where there was no preference file. *)
Lemma init_preferences_empty_store fs fs' :
  fs !! PREFS_PATH = None →
  init_preferences fs = (Ok (), fs') →
  load_preferences fs' = Ok (JArr []) ∧ prefs_store_ok fs' = true
  ∧ data_dir_exists fs'.
Proof.
  intros Hnone. unfold init_preferences, path_exists. rewrite Hnone.
  rewrite (bool_decide_eq_false_2 (is_Some None)) by (by intros [? ?]).
  cbn [negb]. unfold and_then.
  change (makedirs KB_DIR fs) with (ensure_dir KB_DIR fs). unfold ensure_dir.
  assert (Hw : write_json (<[KB_DIR := Dir]> fs) PREFS_PATH
                 (JObj [("preferences", JArr [])])
               = (Ok (), <[PREFS_PATH := File (JsonText
                              (JObj [("preferences", JArr [])]))]>
                           (<[KB_DIR := Dir]> fs))).
  { apply write_prefs_ready.
    - unfold data_dir_exists. by rewrite lookup_insert_eq.
    - rewrite lookup_insert_ne by (symmetry; exact prefs_path_not_data).
      by rewrite Hnone. }
  destruct (fs !! KB_DIR) as [[|c]|]; [|done|]; rewrite Hw; intros [= <-];
    rewrite load_preferences_cases; unfold prefs_store_ok, data_dir_exists;
    rewrite lookup_insert_eq;
    (split; [done|]); (split; [done|]);
    by rewrite lookup_insert_ne, lookup_insert_eq
      by exact prefs_path_not_data.
Qed.

(** C4.  On a disk where the [data] directory exists, as the import-time
    code leaves it, and the preference file is absent, unreadable as JSON,
    or a preference document: [save_preference x] returns, and
    [load_preferences] afterwards returns a list that includes [x], of the
    length the save reported; and when the store is empty to begin with,
    the [n]-th of any sequence of saves reports the count [n]. *)
Theorem save_preference_then_load (fs : gmap string node) :
  data_dir_exists fs →
  prefs_store_ok fs = true →
  (∀ x, ∃ r fs' l,
     save_preference x fs = (Ok r, fs')
     ∧ load_preferences fs' = Ok (JArr l)
     ∧ JStr x ∈ l
     ∧ sr_total_preferences r = Z.of_nat (length l))
  ∧ (load_preferences fs = Ok (JArr []) →
     ∀ xs n, (1 ≤ n ≤ length xs)%nat →
       ∃ r, (save_all xs fs).1 !! (n - 1)%nat = Some (Ok r)
            ∧ sr_total_preferences r = Z.of_nat n).
Proof.
  intros Hdata Hok. split.
  - intros x.
    destruct (save_preference_step x fs Hdata Hok)
      as (l & fs' & _ & Hsave & Hload & _).
    eexists _, fs', (l ++ [JStr x]). split; [exact Hsave|].
    split; [exact Hload|]. split.
    + apply elem_of_app. right. by apply list_elem_of_singleton.
    + cbn. rewrite length_app. cbn. lia.
  - intros Hempty xs n Hn.
    destruct (save_all_counts xs fs [] (n - 1)%nat Hdata Hok Hempty ltac:(lia))
      as (r & Hr & Hcount).
    exists r. split; [exact Hr|]. rewrite Hcount. cbn. lia.
Qed.

Lemma save_preference_then_load_witness :
  (∃ r fs' l,
     save_preference "museums" demo_prefs_disk = (Ok r, fs')
     ∧ load_preferences fs' = Ok (JArr l)
     ∧ JStr "museums" ∈ l
     ∧ sr_total_preferences r = Z.of_nat (length l))
  ∧ (∃ r, (save_all ["a"; "b"; "c"] (init_preferences ∅).2).1 !! 2%nat
          = Some (Ok r)
          ∧ sr_total_preferences r = 3).
Proof.
  split.
  - refine (proj1 (save_preference_then_load demo_prefs_disk _ _) "museums").
    + vm_compute. reflexivity.
    + vm_compute. reflexivity.
  - refine (proj2 (save_preference_then_load (init_preferences ∅).2 _ _) _
              ["a"; "b"; "c"] 3%nat _).
    + vm_compute. reflexivity.
    + vm_compute. reflexivity.
    + vm_compute. reflexivity.
    + cbn. lia.
Defined.

(** The save on the demo disk, evaluated: the other key stays, the new
    string goes last. *)
Example save_preference_demo :
  (save_preference "museums" demo_prefs_disk).1
  = Ok {| sr_status := "ok"; sr_saved_preference := "museums";
          sr_total_preferences := 2 |}
  ∧ (save_preference "museums" demo_prefs_disk).2 !! PREFS_PATH
    = Some (File (JsonText
        (JObj [("owner", JStr "kk");
               ("preferences", JArr [JStr "vegetarian"; JStr "museums"])]))).
Proof. split; vm_compute; reflexivity. Qed.

(** Without the [data] directory the file cannot be created: on an empty
    disk the read fails and is caught, the write raises, and nothing is
    written.  The same when [data] is a regular file. *)
Example save_preference_without_data_dir :
  save_preference "museums" ∅
  = (Raise (FileNotFoundError PREFS_PATH), ∅)
  ∧ save_preference "museums" {[ KB_DIR := File (OtherData "") ]}
    = (Raise (NotADirectoryError PREFS_PATH),
       {[ KB_DIR := File (OtherData "") ]}).
Proof. split; vm_compute; reflexivity. Qed.

(** Outside those states the save raises and the file stays as it was.
    Here the file holds valid JSON that is not an object: the read is
    inside the [try], the [.get] is not. *)
Example save_preference_on_json_array :
  save_preference "museums" {[ PREFS_PATH := File (JsonText (JArr [])) ]}
  = (Raise (AttributeError "object has no attribute 'get'"),
     {[ PREFS_PATH := File (JsonText (JArr [])) ]}).
Proof. reflexivity. Qed.

(** C8.  [load_preferences] never raises.  It returns what the file stores
    under ["preferences"] when the file holds a JSON object, in particular
    the stored list; and it returns the empty list in every other case:
    the file does not exist, it cannot be read or parsed, or the document
    is not an object. *)
Theorem load_preferences_total (fs : gmap string node) :
  (∃ v, load_preferences fs = Ok v)
  ∧ (∀ d l, fs !! PREFS_PATH = Some (File (JsonText (JObj d))) →
            dict_lookup "preferences" d = Some (JArr l) →
            load_preferences fs = Ok (JArr l))
  ∧ (fs !! PREFS_PATH = None → load_preferences fs = Ok (JArr []))
  ∧ (∀ e, read_json fs PREFS_PATH = Raise e →
          load_preferences fs = Ok (JArr []))
  ∧ (∀ j, read_json fs PREFS_PATH = Ok j → (∀ d, j ≠ JObj d) →
          load_preferences fs = Ok (JArr [])).
Proof.
  split; [|split; [|split; [|split]]].
  - rewrite load_preferences_cases. eauto.
  - intros d l Hfile Hl. rewrite load_preferences_cases, Hfile.
    unfold dict_get. by rewrite Hl.
  - intros Hnone. by rewrite load_preferences_cases, Hnone.
  - intros e He. unfold load_preferences. by rewrite He.
  - intros j Hj Hshape. unfold load_preferences. rewrite Hj.
    destruct j; try done. by destruct (Hshape d).
Qed.

Lemma load_preferences_total_witness :
  load_preferences demo_prefs_fs = Ok (JArr [JStr "vegetarian"])
  ∧ load_preferences ∅ = Ok (JArr [])
  ∧ load_preferences {[ PREFS_PATH := File (OtherData "{not json") ]}
    = Ok (JArr [])
  ∧ load_preferences {[ PREFS_PATH := File (JsonText (JInt 7)) ]}
    = Ok (JArr []).
Proof.
  split; [|split; [|split]].
  - eapply (proj1 (proj2 (load_preferences_total demo_prefs_fs)));
      reflexivity.
  - apply (proj1 (proj2 (proj2 (load_preferences_total ∅)))). reflexivity.
  - eapply (proj1 (proj2 (proj2 (proj2 (load_preferences_total _)))) 
              (JSONDecodeError PREFS_PATH)).
    reflexivity.
  - eapply (proj2 (proj2 (proj2 (proj2 (load_preferences_total _)))) (JInt 7));
      [reflexivity|done].
Defined.

(** ** Sessions *)

Section ServerProperties.
Context {Runner : Type}.
Variable app_name : string.
Variable create_session : string → string → Runner → Exc string * Runner.
Variable run_async : string → string → Content → Runner → Run * Runner.

Abbreviation get_session := (get_or_create_session_id app_name create_session).
Abbreviation chat := (chat_endpoint app_name create_session run_async).
Abbreviation serve_all := (serve app_name create_session run_async).

Lemma get_session_known u (s : Server Runner) sid :
  user_sessions s !! u = Some sid → get_session u s = (Ok sid, s).
Proof. intros H. unfold get_or_create_session_id. by rewrite H. Qed.

Lemma get_session_new u (s : Server Runner) sid r :
  user_sessions s !! u = None →
  create_session app_name u (runner s) = (Ok sid, r) →
  get_session u s
  = (Ok sid, {| user_sessions := <[u := sid]> (user_sessions s);
                runner := r;
                created := created s ++ [(u, sid)] |}).
Proof. intros H Hc. unfold get_or_create_session_id. by rewrite H, Hc. Qed.

(** A recorded session is never replaced. *)
Lemma get_session_keeps u' u (s : Server Runner) sid :
  user_sessions s !! u = Some sid →
  user_sessions (get_session u' s).2 !! u = Some sid.
Proof.
  intros H. unfold get_or_create_session_id.
  destruct (user_sessions s !! u') as [sid'|] eqn:Hu'; [done|].
  destruct (create_session app_name u' (runner s)) as [[sid'|e] r]; cbn; [|done].
  rewrite lookup_insert_ne; [done|]. intros ->. congruence.
Qed.

Lemma get_session_consistent u (s : Server Runner) :
  sessions_consistent s → sessions_consistent (get_session u s).2.
Proof.
  intros [Hnd Hmap]. unfold get_or_create_session_id.
  destruct (user_sessions s !! u) as [sid|] eqn:Hu; [done|].
  destruct (create_session app_name u (runner s)) as [[sid|e] r]; cbn; [|done].
  split; cbn.
  - rewrite fmap_app. cbn. apply NoDup_app. split; [done|]. split.
    + intros u' Hin ->%list_elem_of_singleton.
      apply list_elem_of_fmap in Hin as ([u0 sid0] & -> & Hin). cbn in Hu.
      apply Hmap in Hin. cbn in Hin. congruence.
    + apply NoDup_singleton.
  - intros u' sid'. rewrite elem_of_app, list_elem_of_singleton, <- Hmap.
    destruct (decide (u = u')) as [<-|Hne].
    + rewrite lookup_insert_eq, Hu. split.
      * intros [= ->]. by right.
      * intros [H|[= ->]]; done.
    + rewrite lookup_insert_ne by done. split.
      * by left.
      * intros [H|[= ? ?]]; [done|congruence].
Qed.

(** A chat request touches the session map and the log only through the
    session lookup. *)
Lemma chat_sessions request (s : Server Runner) :
  user_sessions (chat request s).2
  = user_sessions (get_session (user_id request) s).2
  ∧ created (chat request s).2
    = created (get_session (user_id request) s).2.
Proof.
  unfold chat_endpoint, and_then.
  destruct (get_session (user_id request) s) as [[sid|e] s1]; [|done].
  destruct (run_async _ _ _ _) as [run r].
  by destruct (run_failure run).
Qed.

Lemma chat_consistent request (s : Server Runner) :
  sessions_consistent s → sessions_consistent (chat request s).2.
Proof.
  intros H. apply (get_session_consistent (user_id request)) in H.
  destruct (chat_sessions request s) as [Hm Hc].
  unfold sessions_consistent. by rewrite Hm, Hc.
Qed.

Lemma serve_consistent requests : ∀ s : Server Runner,
  sessions_consistent s → sessions_consistent (serve_all requests s).
Proof.
  induction requests as [|request requests IH]; intros s H; [done|].
  cbn. apply IH. by apply chat_consistent.
Qed.

Lemma serve_keeps requests : ∀ (s : Server Runner) u sid,
  user_sessions s !! u = Some sid →
  user_sessions (serve_all requests s) !! u = Some sid
  ∧ (∀ sid', (u, sid') ∈ created s → (u, sid') ∈ created (serve_all requests s)).
Proof.
  induction requests as [|request requests IH]; intros s u sid H; [done|].
  cbn. destruct (chat_sessions request s) as [Hm Hc].
  pose proof (get_session_keeps (user_id request) u s sid H) as Hk.
  rewrite <- Hm in Hk. destruct (IH _ _ _ Hk) as [IH1 IH2].
  split; [done|]. intros sid' Hin. apply IH2. rewrite Hc.
  unfold get_or_create_session_id.
  destruct (user_sessions s !! user_id request); [done|].
  destruct (create_session _ _ _) as [[?|?] ?]; cbn; [|done].
  apply elem_of_app. by left.
Qed.

Lemma one_created_session (l : list (string * string)) u sid :
  NoDup l.*1 → (u, sid) ∈ l → filter (λ p, p.1 = u) l = [(u, sid)].
Proof.
  induction l as [|[u0 sid0] l IH]; intros Hnd Hin; [by apply elem_of_nil in Hin|].
  cbn in Hnd. apply NoDup_cons in Hnd as [Hfresh Hnd].
  assert (Hnone : ∀ sid', (u0, sid') ∉ l).
  { intros sid' H. apply Hfresh. apply list_elem_of_fmap. by exists (u0, sid'). }
  apply elem_of_cons in Hin as [[= -> ->]|Hin].
  - rewrite filter_cons_True by done. f_equal.
    clear IH Hfresh Hnd. induction l as [|[u1 sid1] l IH]; [done|].
    rewrite filter_cons_False.
    + apply IH. intros sid' H. apply (Hnone sid'). by right.
    + cbn. intros ->. apply (Hnone sid1). by left.
  - rewrite filter_cons_False; [by apply IH|].
    cbn. intros ->. by apply (Hnone sid).
Qed.

(** The server after a chat request of a user with a recorded session:
    the runner has run the generation on that session, nothing else
    moved. *)
Lemma chat_known request (s : Server Runner) sid :
  user_sessions s !! user_id request = Some sid →
  (chat request s).2
  = {| user_sessions := user_sessions s;
       runner := (run_async (user_id request) sid (user_content request)
                            (runner s)).2;
       created := created s |}.
Proof.
  intros Hknown. unfold chat_endpoint, and_then.
  rewrite (get_session_known _ _ _ Hknown). fold (user_content request).
  destruct (run_async _ _ _ _) as [run r]. by destruct (run_failure run).
Qed.

(** The server after the chat request of a new user: the runner has
    created one session and then run the generation on it. *)
Lemma chat_new request (s : Server Runner) sid r :
  user_sessions s !! user_id request = None →
  create_session app_name (user_id request) (runner s) = (Ok sid, r) →
  (chat request s).2
  = {| user_sessions := <[user_id request := sid]> (user_sessions s);
       runner := (run_async (user_id request) sid (user_content request) r).2;
       created := created s ++ [(user_id request, sid)] |}.
Proof.
  intros Hnew Hcreate. unfold chat_endpoint, and_then.
  rewrite (get_session_new _ _ _ _ Hnew Hcreate). fold (user_content request).
  cbn [runner user_sessions created].
  destruct (run_async _ _ _ _) as [run r']. by destruct (run_failure run).
Qed.

(** Requests of a user with a recorded session never reach
    [create_session]: whatever counts the sessions of the service stays
    where it was. *)
Lemma serve_known_count (count : Runner → nat) u sid :
  (∀ u' sid' c rn, count (run_async u' sid' c rn).2 = count rn) →
  ∀ more (s : Server Runner),
    Forall (λ q, user_id q = u) more →
    user_sessions s !! u = Some sid →
    count (runner (serve_all more s)) = count (runner s).
Proof.
  intros Hrun more. induction more as [|q more IH]; intros s Hall Hknown;
    [done|].
  apply Forall_cons in Hall as [Hq Hall]. cbn [serve foldl].
  assert (Hq' : user_sessions s !! user_id q = Some sid) by by rewrite Hq.
  fold (serve_all more (chat q s).2). rewrite IH; [|done|].
  - rewrite (chat_known _ _ _ Hq'). cbn. apply Hrun.
  - rewrite (chat_known _ _ _ Hq'). done.
Qed.

(** C7.  In a server whose session map and creation log agree, they still
    agree after any sequence of chat requests, so no user ever has two
    sessions.  The first request of a user without a session, when the
    session service returns a session, calls [create_session] once: the
    lookup leaves the runner as that one call left it and records the
    identifier, and the request then runs the generation on that session.
    After any further requests, of any users, a lookup for the same user
    returns the recorded identifier and leaves the whole server, runner
    included, as it is; a further chat request of the user only runs the
    generation on the recorded session; and the log still holds exactly one
    session of that user.  Counted by any counter of the service that
    [create_session] steps by one and the generation leaves alone, the
    first request creates exactly one session and the later requests of
    the user none. *)
Theorem one_session_per_user (s : Server Runner) :
  sessions_consistent s →
  (∀ requests, sessions_consistent (serve_all requests s))
  ∧ (∀ request sid r,
       user_sessions s !! user_id request = None →
       create_session app_name (user_id request) (runner s) = (Ok sid, r) →
       let s1 := (chat request s).2 in
       get_session (user_id request) s
       = (Ok sid, {| user_sessions := <[user_id request := sid]> (user_sessions s);
                     runner := r;
                     created := created s ++ [(user_id request, sid)] |})
       ∧ s1 = {| user_sessions := <[user_id request := sid]> (user_sessions s);
                 runner := (run_async (user_id request) sid
                                      (user_content request) r).2;
                 created := created s ++ [(user_id request, sid)] |}
       ∧ created s1 = created s ++ [(user_id request, sid)]
       ∧ user_sessions s1 !! user_id request = Some sid
       ∧ (∀ more,
            let s2 := serve_all more s1 in
            get_session (user_id request) s2 = (Ok sid, s2)
            ∧ (∀ request', user_id request' = user_id request →
                 (chat request' s2).2
                 = {| user_sessions := user_sessions s2;
                      runner := (run_async (user_id request) sid
                                           (user_content request')
                                           (runner s2)).2;
                      created := created s2 |})
            ∧ filter (λ p, p.1 = user_id request) (created s2)
              = [(user_id request, sid)])
       ∧ (∀ count : Runner → nat,
            (∀ u' rn sid' rn', create_session app_name u' rn = (Ok sid', rn') →
                               count rn' = S (count rn)) →
            (∀ u' sid' c rn, count (run_async u' sid' c rn).2 = count rn) →
            count (runner s1) = S (count (runner s))
            ∧ ∀ more, Forall (λ q, user_id q = user_id request) more →
                      count (runner (serve_all more s1))
                      = S (count (runner s)))).
Proof.
  intros Hs. split; [intros requests; by apply serve_consistent|].
  intros request sid r Hnew Hcreate s1.
  pose proof (chat_new _ _ _ _ Hnew Hcreate) as Hs1. fold s1 in Hs1.
  assert (Hrec : user_sessions s1 !! user_id request = Some sid).
  { by rewrite Hs1; cbn; rewrite lookup_insert_eq. }
  split; [by apply get_session_new|]. split; [done|].
  split; [by rewrite Hs1|]. split; [done|]. split.
  - intros more s2.
    assert (Hs1c : sessions_consistent s1) by by apply chat_consistent.
    destruct (serve_keeps more s1 _ _ Hrec) as [Hrec2 Hlog].
    pose proof (serve_consistent more s1 Hs1c) as [Hnd Hmap].
    split; [by apply get_session_known|]. split.
    + intros request' Hsame. rewrite <- Hsame in Hrec2 |- *.
      by apply chat_known.
    + apply one_created_session; [done|]. by apply Hmap.
  - intros count Hcreate_count Hrun_count.
    assert (Hone : count (runner s1) = S (count (runner s))).
    { rewrite Hs1. cbn. rewrite Hrun_count. by eapply Hcreate_count. }
    split; [done|]. intros more Hall.
    by rewrite (serve_known_count count _ sid Hrun_count more s1 Hall Hrec).
Qed.

(** ** The chat reply *)

Lemma string_app_assoc (a b c : string) : (a +:+ b) +:+ c = a +:+ (b +:+ c).
Proof.
  induction a as [|x a IH]; [done|].
  change (String x ((a +:+ b) +:+ c) = String x (a +:+ (b +:+ c))).
  by rewrite IH.
Qed.

(** Skipping the empty fragments does not change the concatenation. *)
Lemma join_collect_text events :
  join_empty (collect_text events) = join_empty (all_fragments events).
Proof.
  assert (Happ : ∀ l1 l2, join_empty (l1 ++ l2)
                          = join_empty l1 +:+ join_empty l2).
  { induction l1 as [|a l1 IH]; intros l2; [done|].
    cbn. by rewrite IH, string_app_assoc. }
  induction events as [|ev events IH]; [done|].
  unfold collect_text, all_fragments in *. cbn. rewrite !Happ, IH. f_equal.
  unfold event_texts. destruct (event_content ev) as [c|]; [|done].
  destruct (parts c) as [ps|]; [|done].
  unfold part_texts.
  induction ps as [|[[t|]] ps IHps]; [done| |exact IHps].
  cbn -[join_empty]. case_bool_decide as Ht.
  - subst t. exact IHps.
  - unfold join_empty in *. cbn [foldr]. by rewrite IHps.
Qed.

(** C6, amended.  Once the session is resolved, [chat_endpoint] returns
    normally, whatever the generation does.  When the generation raises,
    the reply is "Sorry, I encountered an error: " followed by the text of
    the exception.  Otherwise the reply is the concatenation of every text
    fragment of the turn with the whitespace at both ends stripped, and,
    when that is empty (no text at all, or whitespace only), the fixed
    apology. *)
Theorem chat_reply_stripped_concatenation
    (request : ChatRequest) (s : Server Runner) (sid : string)
    (s1 : Server Runner) :
  get_session (user_id request) s = (Ok sid, s1) →
  let run := (run_async (user_id request) sid (user_content request)
                        (runner s1)).1 in
  let text := strip (join_empty (all_fragments (run_events run))) in
  ∃ reply,
    (chat request s).1
    = Ok {| resp_user_id := user_id request; response := reply |}
    ∧ (∀ e, run_failure run = Some e →
            reply = "Sorry, I encountered an error: " +:+ exn_str e)
    ∧ (run_failure run = None → text ≠ "" → reply = text)
    ∧ (run_failure run = None → text = "" →
       reply = "Sorry, I could not generate a response.")
    ∧ (run_failure run = None → all_fragments (run_events run) = [] →
       reply = "Sorry, I could not generate a response.").
Proof.
  intros Hsession run text.
  assert (Hnone : all_fragments (run_events run) = [] → text = "").
  { intros Hno. unfold text. by rewrite Hno. }
  unfold chat_endpoint, and_then. rewrite Hsession.
  fold (user_content request).
  subst text run.
  destruct (run_async _ _ _ _) as [run r]. cbn [fst] in *.
  rewrite join_collect_text.
  destruct (run_failure run) as [e|].
  - eexists. split; [reflexivity|]. cbn.
    split; [by intros ? [= ->]|]. by repeat split.
  - case_bool_decide as Htext.
    + eexists. split; [reflexivity|]. cbn. repeat split; try done.
    + eexists. split; [reflexivity|]. cbn. repeat split; try done.
      intros _ Hno. by destruct Htext; apply Hnone.
Qed.

End ServerProperties.

Lemma demo_server_consistent : sessions_consistent demo_server.
Proof.
  split; cbn.
  - constructor.
  - intros u sid. rewrite lookup_empty. split; [done|].
    intros H. by apply elem_of_nil in H.
Defined.

Lemma one_session_per_user_witness :
  let request := {| user_id := "u1"; message := "plan Rome" |} in
  let s1 := (chat_endpoint "travel_agent_app" demo_create_session
                           demo_run_async request demo_server).2 in
  get_or_create_session_id "travel_agent_app" demo_create_session "u1"
                           demo_server
  = (Ok "travel_agent_app-u1-0",
     {| user_sessions := <["u1" := "travel_agent_app-u1-0"]> ∅;
        runner := 1%nat;
        created := [] ++ [("u1", "travel_agent_app-u1-0")] |})
  ∧ s1 = {| user_sessions := <["u1" := "travel_agent_app-u1-0"]> ∅;
            runner := (demo_run_async "u1" "travel_agent_app-u1-0"
                                      (user_content request) 1%nat).2;
            created := [] ++ [("u1", "travel_agent_app-u1-0")] |}
  ∧ created s1 = [] ++ [("u1", "travel_agent_app-u1-0")]
  ∧ user_sessions s1 !! "u1" = Some "travel_agent_app-u1-0"
  ∧ (∀ more,
       let s2 := serve "travel_agent_app" demo_create_session demo_run_async
                       more s1 in
       get_or_create_session_id "travel_agent_app" demo_create_session "u1" s2
       = (Ok "travel_agent_app-u1-0", s2)
       ∧ (∀ request', user_id request' = "u1" →
            (chat_endpoint "travel_agent_app" demo_create_session
                           demo_run_async request' s2).2
            = {| user_sessions := user_sessions s2;
                 runner := (demo_run_async "u1" "travel_agent_app-u1-0"
                                           (user_content request')
                                           (runner s2)).2;
                 created := created s2 |})
       ∧ filter (λ p, p.1 = "u1") (created s2)
         = [("u1", "travel_agent_app-u1-0")])
  ∧ (∀ count : nat → nat,
       (∀ u' rn sid' rn', demo_create_session "travel_agent_app" u' rn
                          = (Ok sid', rn') → count rn' = S (count rn)) →
       (∀ u' sid' c rn, count (demo_run_async u' sid' c rn).2 = count rn) →
       count (runner s1) = S (count (runner demo_server))
       ∧ ∀ more, Forall (λ q, user_id q = "u1") more →
                 count (runner (serve "travel_agent_app" demo_create_session
                                      demo_run_async more s1))
                 = S (count (runner demo_server))).
Proof.
  intros request s1.
  refine (proj2 (one_session_per_user "travel_agent_app" demo_create_session
                   demo_run_async demo_server demo_server_consistent)
                request "travel_agent_app-u1-0" 1%nat _ _).
  - reflexivity.
  - reflexivity.
Defined.

(** The counting stub at work: four requests of two users create two
    sessions in the service, in the order the users first asked. *)
Example counting_stub_demo :
  let s := serve "travel_agent_app" demo_create_session demo_run_async
                 [ {| user_id := "u1"; message := "plan Rome" |};
                   {| user_id := "u1"; message := "and hotels" |};
                   {| user_id := "u2"; message := "plan Oslo" |};
                   {| user_id := "u1"; message := "thanks" |} ]
                 demo_server in
  runner s = 2%nat
  ∧ created s = [("u1", "travel_agent_app-u1-0"); ("u2", "travel_agent_app-u2-1")]
  ∧ user_sessions s !! "u1" = Some "travel_agent_app-u1-0"
  ∧ user_sessions s !! "u2" = Some "travel_agent_app-u2-1".
Proof. repeat split; vm_compute; reflexivity. Qed.

(** C6, as stated, fails: with the fragments [" Hello"] and [" there. "]
    the reply is ["Hello there."], not the concatenation
    [" Hello there. "]. *)
Lemma chat_reply_not_plain_concatenation :
  ¬ (∀ (Runner : Type) (app_name : string)
       (create_session : string → string → Runner → Exc string * Runner)
       (run_async : string → string → Content → Runner → Run * Runner)
       (request : ChatRequest) (s : Server Runner) (sid : string)
       (s1 : Server Runner),
       get_or_create_session_id app_name create_session (user_id request) s
       = (Ok sid, s1) →
       let run := (run_async (user_id request) sid (user_content request)
                             (runner s1)).1 in
       run_failure run = None →
       all_fragments (run_events run) ≠ [] →
       (chat_endpoint app_name create_session run_async request s).1
       = Ok {| resp_user_id := user_id request;
               response := join_empty (all_fragments (run_events run)) |}).
Proof.
  intros H.
  specialize (H nat "travel_agent_app" demo_create_session demo_run_async
                {| user_id := "u1"; message := "plan Rome" |} demo_server
                _ _ eq_refl eq_refl).
  vm_compute in H.
  assert (Hne : [" Hello"; " there. "] ≠ []) by done.
  specialize (H Hne). discriminate H.
Qed.

Example chat_reply_demo :
  (chat_endpoint "travel_agent_app" demo_create_session demo_run_async
                 {| user_id := "u1"; message := "plan Rome" |} demo_server).1
  = Ok {| resp_user_id := "u1"; response := "Hello there." |}.
Proof. vm_compute. reflexivity. Qed.

Lemma chat_reply_stripped_concatenation_witness :
  ∃ reply,
    (chat_endpoint "travel_agent_app" demo_create_session demo_run_async
                   {| user_id := "u1"; message := "plan Rome" |} demo_server).1
    = Ok {| resp_user_id := "u1"; response := reply |}
    ∧ reply = "Hello there.".
Proof.
  destruct (chat_reply_stripped_concatenation
              "travel_agent_app" demo_create_session demo_run_async
              {| user_id := "u1"; message := "plan Rome" |} demo_server
              "travel_agent_app-u1-0"
              {| user_sessions := {[ "u1" := "travel_agent_app-u1-0" ]};
                 runner := 1%nat;
                 created := [("u1", "travel_agent_app-u1-0")] |}
              eq_refl)
    as (reply & Hreply & _ & Htext & _).
  exists reply. split; [exact Hreply|].
  apply Htext; [reflexivity|]. vm_compute. discriminate.
Defined.

(** ** The offline build and the import-time load *)

Lemma write_file_other fs q c p :
  p ≠ q → (write_file fs q c).2 !! p = fs !! p.
Proof.
  intros Hne. unfold write_file. destruct (check_parent fs q); [|done].
  destruct (fs !! q) as [[|c']|]; cbn; [done| |]; by rewrite lookup_insert_ne.
Qed.

Lemma ensure_dir_other fs q p :
  p ≠ q → (ensure_dir q fs).2 !! p = fs !! p.
Proof.
  intros Hne. unfold ensure_dir.
  destruct (fs !! q) as [[|c']|]; cbn; [|done|]; by rewrite lookup_insert_ne.
Qed.

Lemma and_then_other {A B} (m : Exc A * gmap string node)
    (k : A → gmap string node → Exc B * gmap string node) p :
  (∀ a fs, (k a fs).2 !! p = fs !! p) →
  (and_then m k).2 !! p = m.2 !! p.
Proof. intros Hk. destruct m as [[a|e] fs]; cbn; [apply Hk|done]. Qed.

Lemma ensure_dirs_other (ds : list string) p : ∀ acc : Exc unit * gmap string node,
  p ∉ ds →
  (foldl (λ acc d, and_then acc (λ _ fs', ensure_dir d fs')) acc ds).2 !! p
  = acc.2 !! p.
Proof.
  induction ds as [|d ds IH]; intros acc Hp; [done|].
  apply not_elem_of_cons in Hp as [Hne Hp]. cbn [foldl].
  rewrite IH by done. apply and_then_other. intros _ fs.
  by apply ensure_dir_other.
Qed.

Lemma makedirs_other q fs p :
  p ∉ parents q ++ [q] → (makedirs q fs).2 !! p = fs !! p.
Proof. intros Hp. unfold makedirs. by rewrite ensure_dirs_other. Qed.

(** A [makedirs] that returns leaves a directory at its path. *)
Lemma makedirs_dir q fs fs' :
  makedirs q fs = (Ok (), fs') → fs' !! q = Some Dir.
Proof.
  unfold makedirs. rewrite foldl_app. cbn [foldl].
  destruct (foldl _ _ (parents q)) as [[[]|e] fs1]; cbn; [|done].
  unfold ensure_dir. destruct (fs1 !! q) as [[|c]|]; intros [= <-];
    by rewrite lookup_insert_eq.
Qed.

Lemma save_local_other vector_store folder fs p :
  p ∉ store_paths folder →
  (save_local vector_store folder fs).2 !! p = fs !! p.
Proof.
  unfold store_paths. intros Hp.
  apply not_elem_of_app in Hp as [Hpar Hp].
  apply not_elem_of_cons in Hp as [Hfolder Hp].
  apply not_elem_of_cons in Hp as [Hfaiss Hp].
  apply not_elem_of_cons in Hp as [Hpkl _].
  unfold save_local.
  rewrite and_then_other.
  - apply makedirs_other. apply not_elem_of_app. split; [done|].
    apply not_elem_of_cons. split; [done|apply not_elem_of_nil].
  - intros _ fs1. rewrite and_then_other.
    + by apply write_file_other.
    + intros _ fs2. by apply write_file_other.
Qed.

Section BuildProperties.
Variable split_text : string → list string.
Variable Embeddings : Type.
Variable from_documents : list LcDocument → Embeddings → Exc VectorStore.
Variable generic_travel_data : list Doc.
Variable embeddings : Embeddings.

Abbreviation build_store :=
  (create_vector_store split_text Embeddings from_documents).
Abbreviation build_main :=
  (main split_text Embeddings from_documents generic_travel_data embeddings).

Lemma create_vector_store_other documents model file_path fs p :
  p ∉ store_paths file_path →
  (build_store documents model file_path fs).2 !! p = fs !! p.
Proof.
  intros Hp. unfold create_vector_store.
  destruct (documents ≫= _) as [|c cs]; [done|].
  destruct (from_documents _ _) as [vs|e]; [|done].
  by apply save_local_other.
Qed.

(** A store that was built leaves a directory at [file_path], unless there
    was nothing to build. *)
Lemma create_vector_store_dir documents model fs fs' :
  build_store documents model KNOWLEDGE_BASE_PATH fs = (Ok (), fs') →
  fs' = fs ∨ fs' !! KNOWLEDGE_BASE_PATH = Some Dir.
Proof.
  unfold create_vector_store.
  destruct (documents ≫= _) as [|c cs]; [intros [= <-]; by left|].
  destruct (from_documents _ _) as [vs|e]; [|done].
  unfold save_local, and_then.
  destruct (makedirs KNOWLEDGE_BASE_PATH fs) as [[[]|e] fs1] eqn:Hmk; [|done].
  apply makedirs_dir in Hmk.
  destruct (write_file fs1 _ _) as [[[]|e] fs2] eqn:Hw1; [|done].
  intros Hw2. right.
  apply (f_equal snd) in Hw1, Hw2. cbn in Hw1, Hw2. subst fs2 fs'.
  rewrite !write_file_other by done. exact Hmk.
Qed.

Lemma main_other fs p :
  p ∉ ["data"] ++ store_paths KNOWLEDGE_BASE_PATH ++ store_paths USER_PREFS_PATH →
  (build_main fs).2 !! p = fs !! p.
Proof.
  intros Hp.
  apply not_elem_of_app in Hp as [Hdata Hp].
  apply not_elem_of_app in Hp as [Hkb Hprefs].
  unfold main. rewrite and_then_other.
  - by apply makedirs_other.
  - intros _ fs1. rewrite and_then_other.
    + by apply create_vector_store_other.
    + intros _ fs2. by apply create_vector_store_other.
Qed.

(** Membership of one concrete path in a concrete list of paths, decided
    by evaluation. *)
Ltac decide_path := apply (bool_decide_unpack _); vm_compute; exact I.

Lemma index_paths_agree : KB_INDEX_PATH = KNOWLEDGE_BASE_PATH.
Proof. reflexivity. Qed.

Lemma texts_path_not_written :
  KB_TEXTS_PATH
  ∉ ["data"] ++ store_paths KNOWLEDGE_BASE_PATH ++ store_paths USER_PREFS_PATH.
Proof. decide_path. Qed.

(** C2: what the code does.  A build that returns never writes the texts
    file the tool layer reads: [data/knowledge_base_texts.json] is as it
    was.  Where it was absent, the import-time load finds no knowledge
    base and starts with an empty index and an empty text list.  And the
    build never leaves a serialized index file at
    [data/knowledge_base.faiss]: that path is a directory after a build
    that wrote anything. *)
Theorem build_output_is_not_loaded
    (empty_search : Vec → Z → Exc (list float * list Z))
    (fs fs' : gmap string node) :
  fs !! KB_TEXTS_PATH = None →
  build_main fs = (Ok (), fs') →
  fs' !! KB_TEXTS_PATH = None
  ∧ load_knowledge_base empty_search fs'
    = Ok (IndexFlatL2 empty_search, JArr [])
  ∧ (fs' !! KB_INDEX_PATH = Some Dir
     ∨ fs' !! KB_INDEX_PATH = fs !! KB_INDEX_PATH).
Proof.
  intros Habsent Hmain.
  assert (Htexts : fs' !! KB_TEXTS_PATH = None).
  { replace fs' with (build_main fs).2 by by rewrite Hmain.
    rewrite main_other; [done|]. exact texts_path_not_written. }
  split; [done|]. split.
  - unfold load_knowledge_base, path_exists. rewrite Htexts.
    rewrite (bool_decide_eq_false_2 (is_Some None)) by (by intros [? ?]).
    by rewrite andb_false_r.
  - rewrite index_paths_agree. revert Hmain. unfold main, and_then.
    destruct (makedirs "data" fs) as [[[]|e] fs1] eqn:Hmk; [|done].
    destruct (build_store generic_travel_data embeddings KNOWLEDGE_BASE_PATH fs1)
      as [[[]|e] fs2] eqn:Hkb; [|done].
    intros Hprefs.
    assert (Hlast : fs' !! KNOWLEDGE_BASE_PATH = fs2 !! KNOWLEDGE_BASE_PATH).
    { apply (f_equal snd) in Hprefs. cbn in Hprefs. subst fs'.
      apply create_vector_store_other.
      decide_path. }
    rewrite Hlast.
    destruct (create_vector_store_dir _ _ _ _ Hkb) as [->|Hdir]; [|by left].
    right. replace fs1 with (makedirs "data" fs).2 by by rewrite Hmk.
    apply makedirs_other. decide_path.
Qed.

End BuildProperties.

Lemma build_output_is_not_loaded_witness :
  let fs' := (demo_build ∅).2 in
  fs' !! KB_TEXTS_PATH = None
  ∧ load_knowledge_base demo_empty_search fs'
    = Ok (IndexFlatL2 demo_empty_search, JArr [])
  ∧ (fs' !! KB_INDEX_PATH = Some Dir
     ∨ fs' !! KB_INDEX_PATH = (∅ : gmap string node) !! KB_INDEX_PATH).
Proof.
  intros fs'.
  apply (build_output_is_not_loaded (λ s, [s]) unit demo_from_documents
           demo_docs () demo_empty_search ∅ fs').
  - reflexivity.
  - vm_compute. reflexivity.
Defined.

(** The demo build on an empty disk, evaluated: a directory where the tool
    layer expects the index file, the index and the pickled docstore
    inside it, and no texts file. *)
Example demo_build_layout :
  let fs' := (demo_build ∅).2 in
  (demo_build ∅).1 = Ok ()
  ∧ fs' !! "data/knowledge_base.faiss" = Some Dir
  ∧ fs' !! "data/knowledge_base.faiss/index.faiss"
    = Some (File (FaissBlob {| ntotal := 1; search := demo_empty_search |}))
  ∧ fs' !! "data/knowledge_base.faiss/index.pkl"
    = Some (File (PickleBlob [("Travel Tips for Foodies",
                               "foodie_travel_tips.txt")]))
  ∧ fs' !! "data/knowledge_base_texts.json" = None
  ∧ fs' !! "data/user_prefs.faiss" = Some Dir.
Proof. repeat split; vm_compute; reflexivity. Qed.

(* ===================================================================== *)
(** * Further properties *)
(* ===================================================================== *)

(** ** The search tools, on a 200 *)

Lemma slice_to_fmap {A B} (f : A → B) n (l : list A) :
  slice_to n (f <$> l) = f <$> slice_to n l.
Proof. unfold slice_to. rewrite length_fmap. by destruct (0 <=? n); rewrite fmap_take. Qed.

Lemma slice_to_length {A} n (l : list A) :
  (length (slice_to n l) ≤ length l)%nat
  ∧ (0 ≤ n → Z.of_nat (length (slice_to n l)) ≤ n).
Proof.
  unfold slice_to. destruct (0 <=? n) eqn:Hn; rewrite length_take; split; lia.
Qed.

Lemma collect_items_objects (items : list pydict) :
  collect_items (JObj <$> items) = Ok (hit_of_item <$> items).
Proof.
  induction items as [|item items IH]; [done|].
  cbn. by rewrite IH.
Qed.

Lemma decode_items_objects resp n d items :
  resp_json resp = Ok (JObj d) →
  dict_get "items" (JArr []) d = JArr (JObj <$> items) →
  decode_items resp n = Ok (hit_of_item <$> slice_to n items).
Proof.
  intros Hbody Hitems. unfold decode_items. rewrite Hbody. cbn.
  rewrite Hitems. cbn. by rewrite slice_to_fmap, collect_items_objects.
Qed.

Lemma credentials_set a b :
  py_not a || py_not b = false →
  ∃ key cx, a = Some key ∧ key ≠ "" ∧ b = Some cx ∧ cx ≠ "".
Proof.
  intros [Ha Hb]%orb_false_iff.
  destruct a as [key|]; [|done]. destruct b as [cx|]; [|done].
  cbn in Ha, Hb. apply bool_decide_eq_false in Ha, Hb. by exists key, cx.
Qed.

(** With both credentials and an answer, [web_search] is the status test
    followed by the decoding. *)
Lemma web_search_answered w q n resp :
  answered w q n resp →
  web_search w q n
  = if negb (status_code resp =? 200) then
      Ok {| ws_query := q; ws_results := [];
            ws_error := Some ("HTTP " +:+ str_of_int (status_code resp)
                              +:+ ": " +:+ resp_text resp);
            ws_source := "google_custom_search" |}
    else
      results ← decode_items resp n;
      Ok {| ws_query := q; ws_results := results; ws_error := None;
            ws_source := "google_custom_search" |}.
Proof.
  intros (key & cx & Hk & Hk' & Hc & Hc' & Hget). unfold web_search.
  rewrite Hk, Hc, !py_not_set by done. cbn [orb default from_option id].
  fold (api_request key cx q n). rewrite Hget.
  destruct (negb (status_code resp =? 200)); [done|].
  unfold decode_items. destruct (resp_json resp) as [data|e]; [|done]. cbn.
  destruct (py_get data "items" (JArr [])) as [items|e]; [|done]. cbn.
  destruct (py_slice_iter items n) as [visited|e]; [|done]. cbn.
  by destruct (collect_items visited).
Qed.

Lemma search_flight_price_answered w origin destination date n resp :
  answered w (flight_query origin destination date) n resp →
  search_flight_price w origin destination date n
  = if negb (status_code resp =? 200) then
      Ok {| fl_origin := origin; fl_destination := destination;
            fl_date := date; fl_results := [];
            fl_error := Some ("HTTP " +:+ str_of_int (status_code resp)
                              +:+ ": " +:+ resp_text resp);
            fl_source := "google_custom_search" |}
    else
      results ← decode_items resp n;
      Ok {| fl_origin := origin; fl_destination := destination;
            fl_date := date; fl_results := results; fl_error := None;
            fl_source := "google_custom_search" |}.
Proof.
  intros (key & cx & Hk & Hk' & Hc & Hc' & Hget). unfold search_flight_price.
  rewrite Hk, Hc, !py_not_set by done. cbn [orb default from_option id].
  fold (flight_query origin destination date).
  fold (api_request key cx (flight_query origin destination date) n).
  rewrite Hget.
  destruct (negb (status_code resp =? 200)); [done|].
  unfold decode_items. destruct (resp_json resp) as [data|e]; [|done]. cbn.
  destruct (py_get data "items" (JArr [])) as [items|e]; [|done]. cbn.
  destruct (py_slice_iter items n) as [visited|e]; [|done]. cbn.
  by destruct (collect_items visited).
Qed.

(** X1.  On a 200 whose body is an object and whose items (none when the
    key is missing) are objects, [web_search] returns without an error
    field; the results are the items in the order of the response, cut by
    the slice [items[:max_results]], each with its title, snippet and link
    and the empty string for a key the item lacks.  There are never more
    results than items, and at most [max_results] of them when that is not
    negative. *)
Theorem web_search_returns_capped_items
    (w : World) (q : string) (n : Z) (resp : Response)
    (d : pydict) (items : list pydict) :
  answered w q n resp →
  status_code resp = 200 →
  resp_json resp = Ok (JObj d) →
  dict_get "items" (JArr []) d = JArr (JObj <$> items) →
  web_search w q n
  = Ok {| ws_query := q;
          ws_results := hit_of_item <$> slice_to n items;
          ws_error := None;
          ws_source := "google_custom_search" |}
  ∧ (length (hit_of_item <$> slice_to n items) ≤ length items)%nat
  ∧ (0 ≤ n → Z.of_nat (length (hit_of_item <$> slice_to n items)) ≤ n).
Proof.
  intros Hans Hst Hbody Hitems.
  rewrite (web_search_answered _ _ _ _ Hans), Hst. cbn [Z.eqb Pos.eqb negb].
  rewrite (decode_items_objects _ _ _ _ Hbody Hitems). cbn.
  rewrite length_fmap. split; [done|]. apply slice_to_length.
Qed.

Lemma demo_world_200_answered q n : answered demo_world_200 q n demo_response_200.
Proof. exists "k", "c". by repeat split. Defined.

Lemma web_search_returns_capped_items_witness :
  web_search demo_world_200 "museums in Rome" 1
  = Ok {| ws_query := "museums in Rome";
          ws_results :=
            hit_of_item <$> slice_to 1 [[("title", JStr "A"); ("link", JStr "u")];
                                        [("snippet", JStr "b")]];
          ws_error := None;
          ws_source := "google_custom_search" |}
  ∧ (length (hit_of_item <$> slice_to 1 [[("title", JStr "A"); ("link", JStr "u")];
                                         [("snippet", JStr "b")]]) ≤ 2)%nat
  ∧ (0 ≤ 1 →
     Z.of_nat (length (hit_of_item
                         <$> slice_to 1 [[("title", JStr "A"); ("link", JStr "u")];
                                         [("snippet", JStr "b")]])) ≤ 1).
Proof.
  apply (web_search_returns_capped_items demo_world_200 "museums in Rome" 1
           demo_response_200
           [("items", JArr [JObj [("title", JStr "A"); ("link", JStr "u")];
                            JObj [("snippet", JStr "b")]])]
           [[("title", JStr "A"); ("link", JStr "u")]; [("snippet", JStr "b")]]).
  - apply demo_world_200_answered.
  - reflexivity.
  - reflexivity.
  - reflexivity.
Defined.

(** A negative cap does not empty the list: it drops items from the end. *)
Example web_search_negative_cap :
  web_search demo_world_200 "museums in Rome" (-1)
  = Ok {| ws_query := "museums in Rome";
          ws_results :=
            [ {| sh_title := JStr "A"; sh_snippet := JStr "";
                 sh_url := JStr "u" |} ];
          ws_error := None;
          ws_source := "google_custom_search" |}.
Proof. vm_compute. reflexivity. Qed.

(** X2.  The same for [search_flight_price], on the answer to the query it
    formats from origin, destination and date. *)
Theorem search_flight_price_returns_capped_items
    (w : World) (origin destination date : string) (n : Z) (resp : Response)
    (d : pydict) (items : list pydict) :
  answered w (flight_query origin destination date) n resp →
  status_code resp = 200 →
  resp_json resp = Ok (JObj d) →
  dict_get "items" (JArr []) d = JArr (JObj <$> items) →
  search_flight_price w origin destination date n
  = Ok {| fl_origin := origin; fl_destination := destination;
          fl_date := date;
          fl_results := hit_of_item <$> slice_to n items;
          fl_error := None;
          fl_source := "google_custom_search" |}
  ∧ (length (hit_of_item <$> slice_to n items) ≤ length items)%nat
  ∧ (0 ≤ n → Z.of_nat (length (hit_of_item <$> slice_to n items)) ≤ n).
Proof.
  intros Hans Hst Hbody Hitems.
  rewrite (search_flight_price_answered _ _ _ _ _ _ Hans), Hst.
  cbn [Z.eqb Pos.eqb negb].
  rewrite (decode_items_objects _ _ _ _ Hbody Hitems). cbn.
  rewrite length_fmap. split; [done|]. apply slice_to_length.
Qed.

Lemma search_flight_price_returns_capped_items_witness :
  search_flight_price demo_world_200 "TPE" "NRT" "2025-01-02" 1
  = Ok {| fl_origin := "TPE"; fl_destination := "NRT"; fl_date := "2025-01-02";
          fl_results :=
            hit_of_item <$> slice_to 1 [[("title", JStr "A"); ("link", JStr "u")];
                                        [("snippet", JStr "b")]];
          fl_error := None;
          fl_source := "google_custom_search" |}
  ∧ (length (hit_of_item <$> slice_to 1 [[("title", JStr "A"); ("link", JStr "u")];
                                         [("snippet", JStr "b")]]) ≤ 2)%nat
  ∧ (0 ≤ 1 →
     Z.of_nat (length (hit_of_item
                         <$> slice_to 1 [[("title", JStr "A"); ("link", JStr "u")];
                                         [("snippet", JStr "b")]])) ≤ 1).
Proof.
  apply (search_flight_price_returns_capped_items demo_world_200
           "TPE" "NRT" "2025-01-02" 1 demo_response_200
           [("items", JArr [JObj [("title", JStr "A"); ("link", JStr "u")];
                            JObj [("snippet", JStr "b")]])]
           [[("title", JStr "A"); ("link", JStr "u")]; [("snippet", JStr "b")]]).
  - apply demo_world_200_answered.
  - reflexivity.
  - reflexivity.
  - reflexivity.
Defined.

(** Either a tool has an answer to work on, or it returns an error result
    of its own making. *)
Lemma web_search_unanswered w q n :
  (∃ resp, answered w q n resp)
  ∨ (∃ msg, web_search w q n
            = Ok {| ws_query := q; ws_results := []; ws_error := Some msg;
                    ws_source := "google_custom_search" |}).
Proof.
  unfold web_search.
  destruct (py_not _ || py_not _) eqn:Hcreds; [right; eauto|].
  destruct (credentials_set _ _ Hcreds) as (key & cx & Hk & Hk' & Hc & Hc').
  rewrite Hk, Hc. cbn [default from_option id]. fold (api_request key cx q n).
  destruct (requests_get w (api_request key cx q n)) as [resp|e] eqn:Hget.
  - left. exists resp, key, cx. by repeat split.
  - right. eauto.
Qed.

Lemma search_flight_price_unanswered w origin destination date n :
  (∃ resp, answered w (flight_query origin destination date) n resp)
  ∨ (∃ msg, search_flight_price w origin destination date n
            = Ok {| fl_origin := origin; fl_destination := destination;
                    fl_date := date; fl_results := []; fl_error := Some msg;
                    fl_source := "google_custom_search" |}).
Proof.
  unfold search_flight_price.
  destruct (py_not _ || py_not _) eqn:Hcreds; [right; eauto|].
  destruct (credentials_set _ _ Hcreds) as (key & cx & Hk & Hk' & Hc & Hc').
  rewrite Hk, Hc. cbn [default from_option id].
  fold (flight_query origin destination date).
  fold (api_request key cx (flight_query origin destination date) n).
  destruct (requests_get w _) as [resp|e] eqn:Hget.
  - left. exists resp, key, cx. by repeat split.
  - right. eauto.
Qed.

(** X3.  The search tools raise in one situation only: the GET was
    answered with status 200 and the decoding of the body raises (the body
    is not JSON or not an object, the items cannot be sliced, or a visited
    item is not an object).  That exception reaches the caller as it is;
    nothing on the 200 path is caught. *)
Theorem search_tools_raise_only_when_decoding (w : World) :
  (∀ q n e,
     web_search w q n = Raise e
     ↔ ∃ resp, answered w q n resp ∧ status_code resp = 200
               ∧ decode_items resp n = Raise e)
  ∧ (∀ origin destination date n e,
       search_flight_price w origin destination date n = Raise e
       ↔ ∃ resp, answered w (flight_query origin destination date) n resp
                 ∧ status_code resp = 200
                 ∧ decode_items resp n = Raise e).
Proof.
  split.
  - intros q n e. split.
    + intros Hraise.
      destruct (web_search_unanswered w q n) as [[resp Hans]|[msg Hok]];
        [|congruence].
      exists resp. split; [done|].
      rewrite (web_search_answered _ _ _ _ Hans) in Hraise.
      destruct (status_code resp =? 200) eqn:Hst; [|done].
      apply Z.eqb_eq in Hst. split; [done|]. cbn in Hraise.
      destruct (decode_items resp n); [done|]. by injection Hraise as ->.
    + intros (resp & Hans & Hst & Hdec).
      rewrite (web_search_answered _ _ _ _ Hans), Hst. cbn [Z.eqb Pos.eqb negb].
      by rewrite Hdec.
  - intros origin destination date n e. split.
    + intros Hraise.
      destruct (search_flight_price_unanswered w origin destination date n)
        as [[resp Hans]|[msg Hok]]; [|congruence].
      exists resp. split; [done|].
      rewrite (search_flight_price_answered _ _ _ _ _ _ Hans) in Hraise.
      destruct (status_code resp =? 200) eqn:Hst; [|done].
      apply Z.eqb_eq in Hst. split; [done|]. cbn in Hraise.
      destruct (decode_items resp n); [done|]. by injection Hraise as ->.
    + intros (resp & Hans & Hst & Hdec).
      rewrite (search_flight_price_answered _ _ _ _ _ _ Hans), Hst.
      cbn [Z.eqb Pos.eqb negb]. by rewrite Hdec.
Qed.

Lemma search_tools_raise_only_when_decoding_witness :
  web_search demo_world_html "museums in Rome" 5
  = Raise (JSONDecodeError "Expecting value")
  ∧ search_flight_price demo_world_html "TPE" "NRT" "2025-01-02" 10
    = Raise (JSONDecodeError "Expecting value").
Proof.
  split.
  - apply (proj1 (search_tools_raise_only_when_decoding demo_world_html)).
    eexists. split; [exists "k", "c"; by repeat split|]. by split.
  - apply (proj2 (search_tools_raise_only_when_decoding demo_world_html)).
    eexists. split; [exists "k", "c"; by repeat split|]. by split.
Defined.

(** ** Knowledge-base search and load *)

(** X4.  [kb_search] raises exactly when the knowledge base is not empty
    and the library search raises, and then with the library's exception:
    the search is not guarded. *)
Theorem kb_search_raises_with_the_library
    (embed_text : string → Vec) (kb : KnowledgeBase) (query : string)
    (k : Z) (e : exn) :
  kb_search embed_text kb query k = Raise e
  ↔ ∃ ix, kb_index kb = Some ix ∧ ntotal ix ≠ 0 ∧ kb_texts kb ≠ []
          ∧ search ix (embed_text query) k = Raise e.
Proof.
  unfold kb_search. split.
  - destruct (kb_index kb) as [ix|]; [|done].
    destruct (ntotal ix =? 0) eqn:Hn; [done|]. cbn [orb].
    case_bool_decide as Ht; [done|].
    destruct (search ix (embed_text query) k) as [[ds ids]|e'] eqn:Hs; [done|].
    cbn. intros [= ->]. exists ix. apply Z.eqb_neq in Hn. done.
  - intros (ix & -> & Hn & Ht & Hs). apply Z.eqb_neq in Hn. rewrite Hn.
    cbn [orb]. rewrite bool_decide_eq_false_2 by done. by rewrite Hs.
Qed.

Lemma kb_search_raises_with_the_library_witness :
  kb_search (λ _, []) demo_kb "q" 0 = Raise (Exn "AssertionError" "k > 0").
Proof.
  apply (kb_search_raises_with_the_library (λ _, []) demo_kb "q" 0).
  exists demo_index. repeat split; [cbn; lia|done].
Defined.

(** X5.  When either knowledge-base file is missing, the import-time load
    does not raise and ignores the file that may be there: the index is a
    new empty one and the text list is empty.  With that index every
    [kb_search] answers "Knowledge base is empty.", whatever the texts. *)
Theorem load_knowledge_base_missing_file
    (empty_search : Vec → Z → Exc (list float * list Z))
    (fs : gmap string node) :
  fs !! KB_INDEX_PATH = None ∨ fs !! KB_TEXTS_PATH = None →
  load_knowledge_base empty_search fs = Ok (IndexFlatL2 empty_search, JArr [])
  ∧ ∀ embed_text texts query k,
      kb_search embed_text
                {| kb_index := Some (IndexFlatL2 empty_search);
                   kb_texts := texts |} query k
      = Ok {| kb_query := query; kb_results := [];
              kb_message := Some "Knowledge base is empty." |}.
Proof.
  intros Hmiss. split; [|done].
  unfold load_knowledge_base, path_exists.
  destruct Hmiss as [-> | ->];
    rewrite (bool_decide_eq_false_2 (is_Some None)) by (by intros [? ?]);
    [done|by rewrite andb_false_r].
Qed.

Lemma load_knowledge_base_missing_file_witness :
  load_knowledge_base demo_empty_search
    {[ KB_INDEX_PATH := File (FaissBlob demo_index) ]}
  = Ok (IndexFlatL2 demo_empty_search, JArr [])
  ∧ ∀ embed_text texts query k,
      kb_search embed_text
                {| kb_index := Some (IndexFlatL2 demo_empty_search);
                   kb_texts := texts |} query k
      = Ok {| kb_query := query; kb_results := [];
              kb_message := Some "Knowledge base is empty." |}.
Proof.
  apply (load_knowledge_base_missing_file demo_empty_search
           {[ KB_INDEX_PATH := File (FaissBlob demo_index) ]}).
  right. vm_compute. reflexivity.
Defined.

(** X6.  When both knowledge-base files exist, the load returns exactly
    when the index path holds a serialized index and the texts path holds
    JSON, and then it returns that index and that JSON value; otherwise it
    raises (the import fails): it never falls back to the empty knowledge
    base. *)
Theorem load_knowledge_base_both_files
    (empty_search : Vec → Z → Exc (list float * list Z))
    (fs : gmap string node) (ix : Index) (texts : json) :
  is_Some (fs !! KB_INDEX_PATH) →
  is_Some (fs !! KB_TEXTS_PATH) →
  load_knowledge_base empty_search fs = Ok (ix, texts)
  ↔ fs !! KB_INDEX_PATH = Some (File (FaissBlob ix))
    ∧ fs !! KB_TEXTS_PATH = Some (File (JsonText texts)).
Proof.
  intros Hi Ht. unfold load_knowledge_base, path_exists.
  rewrite !bool_decide_eq_true_2 by done. cbn [andb].
  unfold read_index, read_json.
  destruct Hi as [ni Hi], Ht as [nt Ht]. rewrite Hi, Ht.
  destruct ni as [|[j|ix'| |]]; cbn; try (split; [done|by intros [[=] _]]).
  destruct nt as [|[j|ix''| |]]; cbn; try (split; [done|by intros [_ [=]]]).
  split.
  - by intros [= -> ->].
  - by intros [[= ->] [= ->]].
Qed.

Lemma load_knowledge_base_both_files_witness :
  load_knowledge_base demo_empty_search demo_kb_fs
  = Ok (demo_index, JArr [JStr "alpha"; JStr "beta"]).
Proof.
  apply (load_knowledge_base_both_files demo_empty_search demo_kb_fs).
  - exists (File (FaissBlob demo_index)). vm_compute. reflexivity.
  - exists (File (JsonText (JArr [JStr "alpha"; JStr "beta"]))).
    vm_compute. reflexivity.
  - split; vm_compute; reflexivity.
Defined.

(** ** The preference store *)

Lemma dict_lookup_set_ne k k' v d :
  k' ≠ k → dict_lookup k' (dict_set k v d) = dict_lookup k' d.
Proof.
  intros Hne. induction d as [|[k0 v0] d IH]; cbn.
  - by rewrite decide_False.
  - destruct (decide (k0 = k)) as [->|Hk0]; cbn.
    + by rewrite !decide_False.
    + by rewrite IH.
Qed.

(** Setting a key never reorders or drops keys: the keys are as before,
    with the new key at the end when it was not there. *)
Lemma dict_set_keys k v d :
  (dict_set k v d).*1 = match dict_lookup k d with Some _ => d.*1 | None => d.*1 ++ [k] end.
Proof.
  induction d as [|[k0 v0] d IH]; [done|]. cbn.
  destruct (decide (k0 = k)) as [->|Hne]; [done|].
  cbn. rewrite IH. by destruct (dict_lookup k d).
Qed.

(** What a save that returns has written: the document it read, or the
    default one, with the list extended. *)
Lemma save_preference_written x fs r fs' :
  save_preference x fs = (Ok r, fs') →
  ∃ d l,
    match read_json fs PREFS_PATH with
    | Ok j => j | Raise _ => JObj [("preferences", JArr [])] end = JObj d
    ∧ dict_get "preferences" (JArr []) d = JArr l
    ∧ fs' = <[PREFS_PATH := File (JsonText
                (JObj (dict_set "preferences" (JArr (l ++ [JStr x])) d)))]> fs.
Proof.
  unfold save_preference.
  destruct (match read_json fs PREFS_PATH with
            | Ok j => j | Raise _ => JObj [("preferences", JArr [])] end)
    as [| | | | | |d] eqn:Hd; try done.
  destruct (dict_get "preferences" (JArr []) d) as [| | | | |l|] eqn:Hl;
    try done.
  destruct (write_json fs PREFS_PATH _) as [[[]|e] fs1] eqn:Hw; [|done].
  intros [= _ <-]. apply write_file_done in Hw. by exists d, l.
Qed.

(** X7.  A save that finds the [data] directory and a good store appends:
    the stored preferences afterwards are the earlier ones, in their
    order, followed by the new string, also when the string is already
    stored.  Every other key of the document keeps its value and the keys
    keep their order, and no other path of the disk changes. *)
Theorem save_preference_appends_and_keeps_the_rest
    (x : string) (fs : gmap string node) (l : list json) :
  data_dir_exists fs →
  prefs_store_ok fs = true →
  load_preferences fs = Ok (JArr l) →
  ∃ r fs',
    save_preference x fs = (Ok r, fs')
    ∧ load_preferences fs' = Ok (JArr (l ++ [JStr x]))
    ∧ (∀ p, p ≠ PREFS_PATH → fs' !! p = fs !! p)
    ∧ (∀ d, fs !! PREFS_PATH = Some (File (JsonText (JObj d))) →
         ∃ d', fs' !! PREFS_PATH = Some (File (JsonText (JObj d')))
               ∧ (∀ k, k ≠ "preferences" → dict_lookup k d' = dict_lookup k d)
               ∧ d'.*1 = match dict_lookup "preferences" d with
                         | Some _ => d.*1
                         | None => d.*1 ++ ["preferences"]
                         end).
Proof.
  intros Hdata Hok Hload.
  destruct (save_preference_step x fs Hdata Hok)
    as (l' & fs' & Hl' & Hsave & Hload' & _).
  assert (l' = l) as -> by congruence.
  eexists _, fs'. split; [exact Hsave|]. split; [exact Hload'|].
  destruct (save_preference_written _ _ _ _ Hsave) as (d & l0 & Hd & Hl0 & ->).
  split.
  - intros p Hp. by rewrite lookup_insert_ne.
  - intros d0 Hfile. unfold read_json in Hd. rewrite Hfile in Hd.
    injection Hd as <-. eexists. split; [by rewrite lookup_insert_eq|].
    split.
    + intros k Hk. by apply dict_lookup_set_ne.
    + apply dict_set_keys.
Qed.

Lemma save_preference_appends_and_keeps_the_rest_witness :
  ∃ r fs',
    save_preference "vegetarian" demo_prefs_disk = (Ok r, fs')
    ∧ load_preferences fs' = Ok (JArr ([JStr "vegetarian"] ++ [JStr "vegetarian"]))
    ∧ (∀ p, p ≠ PREFS_PATH → fs' !! p = demo_prefs_disk !! p)
    ∧ (∀ d, demo_prefs_disk !! PREFS_PATH = Some (File (JsonText (JObj d))) →
         ∃ d', fs' !! PREFS_PATH = Some (File (JsonText (JObj d')))
               ∧ (∀ k, k ≠ "preferences" → dict_lookup k d' = dict_lookup k d)
               ∧ d'.*1 = match dict_lookup "preferences" d with
                         | Some _ => d.*1
                         | None => d.*1 ++ ["preferences"]
                         end).
Proof.
  apply (save_preference_appends_and_keeps_the_rest
           "vegetarian" demo_prefs_disk [JStr "vegetarian"]).
  - vm_compute. reflexivity.
  - vm_compute. reflexivity.
  - vm_compute. reflexivity.
Defined.

(** X8.  Outside the good states (the path is a directory, or the file
    holds JSON that is not an object, or an object whose ["preferences"]
    entry is not a list) [save_preference] raises and the disk is as it
    was: nothing is written before the failure. *)
Theorem save_preference_refuses_other_documents
    (x : string) (fs : gmap string node) :
  prefs_store_ok fs = false →
  ∃ e, save_preference x fs = (Raise e, fs).
Proof.
  unfold prefs_store_ok, save_preference, read_json.
  destruct (fs !! PREFS_PATH) as [[|[j| | |]]|] eqn:Hfile; try done;
    intros Hbad.
  - cbn. unfold write_json, write_file.
    destruct (check_parent fs PREFS_PATH); [rewrite Hfile|]; eauto.
  - destruct j as [| | | | | |d]; try done; try by eauto.
    unfold dict_get.
    destruct (dict_lookup "preferences" d) as [[| | | | |l0|]|]; try done;
      cbn; eauto.
Qed.

Lemma save_preference_refuses_other_documents_witness :
  ∃ e, save_preference "museums"
         {[ PREFS_PATH := File (JsonText (JObj [("preferences", JNull)])) ]}
       = (Raise e,
          {[ PREFS_PATH := File (JsonText (JObj [("preferences", JNull)])) ]}).
Proof.
  apply (save_preference_refuses_other_documents "museums").
  vm_compute. reflexivity.
Defined.

(** X9.  Saves compose: after any sequence of saves on a disk with the
    [data] directory and a good store, every save has returned, and
    [load_preferences] returns the preferences stored before followed by
    the saved strings, in the order of the calls, duplicates included. *)
Theorem saves_accumulate_in_call_order (xs : list string) :
  ∀ (fs : gmap string node) (l : list json),
    data_dir_exists fs →
    prefs_store_ok fs = true →
    load_preferences fs = Ok (JArr l) →
    load_preferences (save_all xs fs).2 = Ok (JArr (l ++ (JStr <$> xs)))
    ∧ Forall (λ r, ∃ v, r = Ok v) (save_all xs fs).1
    ∧ prefs_store_ok (save_all xs fs).2 = true
    ∧ data_dir_exists (save_all xs fs).2.
Proof.
  induction xs as [|x xs IH]; intros fs l Hdata Hok Hload.
  - cbn. by rewrite app_nil_r.
  - destruct (save_preference_step x fs Hdata Hok)
      as (l' & fs' & Hl' & Hsave & Hload' & Hok' & Hdata').
    assert (l' = l) as -> by congruence.
    cbn [save_all]. rewrite Hsave.
    destruct (IH fs' _ Hdata' Hok' Hload') as (IH1 & IH2 & IH3 & IH4).
    destruct (save_all xs fs') as [rs fs2]. cbn in *.
    rewrite IH1, <- app_assoc. split; [done|]. split; [|done].
    constructor; [eauto|done].
Qed.

Lemma saves_accumulate_in_call_order_witness :
  load_preferences (save_all ["museums"; "vegetarian"] demo_prefs_disk).2
  = Ok (JArr ([JStr "vegetarian"] ++ (JStr <$> ["museums"; "vegetarian"])))
  ∧ Forall (λ r, ∃ v, r = Ok v)
           (save_all ["museums"; "vegetarian"] demo_prefs_disk).1
  ∧ prefs_store_ok (save_all ["museums"; "vegetarian"] demo_prefs_disk).2 = true
  ∧ data_dir_exists (save_all ["museums"; "vegetarian"] demo_prefs_disk).2.
Proof.
  apply (saves_accumulate_in_call_order ["museums"; "vegetarian"]
           demo_prefs_disk).
  - vm_compute. reflexivity.
  - vm_compute. reflexivity.
  - vm_compute. reflexivity.
Defined.

(** X10.  The import-time code never overwrites a preference file: when
    the path exists, whatever it holds, the disk is left as it is, so a
    restart after a save that returned keeps what was saved.  When the
    path is missing it creates the [data] directory and the document with
    an empty list; when [data] is a file it raises and writes nothing. *)
Theorem init_preferences_creates_only_when_missing (fs : gmap string node) :
  (is_Some (fs !! PREFS_PATH) → init_preferences fs = (Ok (), fs))
  ∧ (∀ x r fs', save_preference x fs = (Ok r, fs') →
                init_preferences fs' = (Ok (), fs')
                ∧ load_preferences (init_preferences fs').2
                  = load_preferences fs')
  ∧ (fs !! PREFS_PATH = None → (∀ c, fs !! KB_DIR ≠ Some (File c)) →
     init_preferences fs
     = (Ok (), <[PREFS_PATH := File (JsonText empty_prefs_doc)]>
                 (<[KB_DIR := Dir]> fs)))
  ∧ (fs !! PREFS_PATH = None → ∀ c, fs !! KB_DIR = Some (File c) →
     init_preferences fs = (Raise (FileExistsError KB_DIR), fs)).
Proof.
  assert (Hexists : ∀ fs0 : gmap string node,
            is_Some (fs0 !! PREFS_PATH) → init_preferences fs0 = (Ok (), fs0)).
  { intros fs0 H. unfold init_preferences, path_exists.
    by rewrite bool_decide_eq_true_2. }
  split; [apply Hexists|]. split; [|split].
  - intros x r fs' Hsave.
    destruct (save_preference_written _ _ _ _ Hsave) as (d & l & _ & _ & ->).
    rewrite Hexists; [done|]. rewrite lookup_insert_eq. eauto.
  - intros Hnone Hdir. unfold init_preferences, path_exists. rewrite Hnone.
    rewrite (bool_decide_eq_false_2 (is_Some None)) by (by intros [? ?]).
    cbn [negb]. unfold and_then.
    change (makedirs KB_DIR fs) with (ensure_dir KB_DIR fs). unfold ensure_dir.
    assert (Hw : write_json (<[KB_DIR := Dir]> fs) PREFS_PATH empty_prefs_doc
                 = (Ok (), <[PREFS_PATH := File (JsonText empty_prefs_doc)]>
                             (<[KB_DIR := Dir]> fs))).
    { apply write_prefs_ready.
      - unfold data_dir_exists. by rewrite lookup_insert_eq.
      - rewrite lookup_insert_ne by (symmetry; exact prefs_path_not_data).
        by rewrite Hnone. }
    destruct (fs !! KB_DIR) as [[|c]|] eqn:Hd; [| by destruct (Hdir c) |];
      exact Hw.
  - intros Hnone c Hfile. unfold init_preferences, path_exists. rewrite Hnone.
    rewrite (bool_decide_eq_false_2 (is_Some None)) by (by intros [? ?]).
    cbn. unfold ensure_dir. by rewrite Hfile.
Qed.

Lemma init_preferences_creates_only_when_missing_witness :
  init_preferences demo_prefs_fs = (Ok (), demo_prefs_fs)
  ∧ (init_preferences (save_preference "museums" demo_prefs_disk).2
     = (Ok (), (save_preference "museums" demo_prefs_disk).2)
     ∧ load_preferences
         (init_preferences (save_preference "museums" demo_prefs_disk).2).2
       = load_preferences (save_preference "museums" demo_prefs_disk).2)
  ∧ init_preferences ∅
    = (Ok (), <[PREFS_PATH := File (JsonText empty_prefs_doc)]>
                (<[KB_DIR := Dir]> ∅))
  ∧ init_preferences {[ KB_DIR := File (OtherData "") ]}
    = (Raise (FileExistsError KB_DIR), {[ KB_DIR := File (OtherData "") ]}).
Proof.
  split; [|split; [|split]].
  - apply (proj1 (init_preferences_creates_only_when_missing demo_prefs_fs)).
    eexists. vm_compute. reflexivity.
  - apply (proj1 (proj2 (init_preferences_creates_only_when_missing
                           demo_prefs_disk))
             "museums"
             {| sr_status := "ok"; sr_saved_preference := "museums";
                sr_total_preferences := 2 |}).
    vm_compute. reflexivity.
  - apply (proj1 (proj2 (proj2 (init_preferences_creates_only_when_missing ∅)))).
    + vm_compute. reflexivity.
    + intros c. rewrite lookup_empty. discriminate.
  - refine (proj2 (proj2 (proj2 (init_preferences_creates_only_when_missing
                                   {[ KB_DIR := File (OtherData "") ]})))
              _ (OtherData "") _).
    + vm_compute. reflexivity.
    + vm_compute. reflexivity.
Defined.

(** ** The chat server *)

Section ChatProperties.
Context {Runner : Type}.
Variable app_name : string.
Variable create_session : string → string → Runner → Exc string * Runner.
Variable run_async : string → string → Content → Runner → Run * Runner.

Abbreviation session_of := (get_or_create_session_id app_name create_session).
Abbreviation chat_with := (chat_endpoint app_name create_session run_async).
Abbreviation served := (serve app_name create_session run_async).

(** The result of [chat_endpoint] is a raise exactly when the session
    lookup raises. *)
Lemma chat_result request (s : Server Runner) e :
  (chat_with request s).1 = Raise e
  ↔ (session_of (user_id request) s).1 = Raise e.
Proof.
  unfold chat_endpoint, and_then.
  destruct (session_of (user_id request) s) as [[sid|e'] s1];
    [|cbn; split; by intros [= ->]].
  destruct (run_async _ _ _ _) as [run r]. cbn.
  destruct (run_failure run); split; discriminate.
Qed.

(** X11.  The only exception [chat_endpoint] lets out is one of session
    creation: it raises exactly when the user has no recorded session and
    [create_session] raises, with that exception.  The session map and the
    log are then as before, so the next request of the user tries again. *)
Theorem chat_raises_only_from_session_creation
    (request : ChatRequest) (s : Server Runner) (e : exn) :
  ((chat_with request s).1 = Raise e
   ↔ user_sessions s !! user_id request = None
     ∧ (create_session app_name (user_id request) (runner s)).1 = Raise e)
  ∧ ((chat_with request s).1 = Raise e →
     user_sessions (chat_with request s).2 = user_sessions s
     ∧ created (chat_with request s).2 = created s).
Proof.
  split.
  - rewrite chat_result. unfold get_or_create_session_id.
    destruct (user_sessions s !! user_id request) as [sid|]; cbn.
    + split; [done|by intros [[=] _]].
    + destruct (create_session _ _ _) as [[sid|e'] r]; cbn.
      * split; [done|by intros [_ [=]]].
      * split; [by intros [= ->]|by intros [_ [= ->]]].
  - intros Hraise. apply chat_result in Hraise.
    destruct (chat_sessions app_name create_session run_async request s)
      as [-> ->].
    revert Hraise. unfold get_or_create_session_id.
    destruct (user_sessions s !! user_id request) as [sid|]; [done|].
    by destruct (create_session _ _ _) as [[sid|e'] r].
Qed.

(** X12.  Whenever [chat_endpoint] returns, the response names the user
    of the request and its text is not empty. *)
Theorem chat_reply_is_never_empty
    (request : ChatRequest) (s : Server Runner) (r : ChatResponse) :
  (chat_with request s).1 = Ok r →
  resp_user_id r = user_id request ∧ response r ≠ "".
Proof.
  unfold chat_endpoint, and_then.
  destruct (session_of (user_id request) s) as [[sid|e'] s1]; [|done].
  destruct (run_async _ _ _ _) as [run rn]. cbn.
  destruct (run_failure run) as [e|]; cbn.
  - by intros [= <-].
  - case_bool_decide as Htext; by intros [= <-].
Qed.

Lemma session_of_other u' u (s : Server Runner) :
  u ≠ u' →
  user_sessions (session_of u' s).2 !! u = user_sessions s !! u.
Proof.
  intros Hne. unfold get_or_create_session_id.
  destruct (user_sessions s !! u'); [done|].
  destruct (create_session _ _ _) as [[sid|e] r]; cbn; [|done].
  by rewrite lookup_insert_ne.
Qed.

(** The server after the chat request of a new user whose session could
    not be created: only the runner moved, by the failed call. *)
Lemma chat_failed request (s : Server Runner) e r :
  user_sessions s !! user_id request = None →
  create_session app_name (user_id request) (runner s) = (Raise e, r) →
  (chat_with request s).2
  = {| user_sessions := user_sessions s; runner := r; created := created s |}.
Proof.
  intros Hnew Hcreate. unfold chat_endpoint, and_then, get_or_create_session_id.
  by rewrite Hnew, Hcreate.
Qed.

(** X13.  Over any sequence of chat requests the session map only grows,
    and only by the users who ask: a recorded session keeps its
    identifier for ever, and a user who sends no request is as before.
    The session service is asked for exactly one session per user added
    to the map and for none otherwise: by any counter of the service that
    a successful [create_session] steps by one, and that a failed one and
    the generation leave alone, the sessions created over the sequence
    are as many as the entries the map gained. *)
Theorem session_map_only_grows (requests : list ChatRequest) :
  ∀ s : Server Runner,
    (∀ u sid, user_sessions s !! u = Some sid →
              user_sessions (served requests s) !! u = Some sid)
    ∧ (∀ u, u ∉ user_id <$> requests →
            user_sessions (served requests s) !! u = user_sessions s !! u)
    ∧ (∀ count : Runner → nat,
         (∀ u rn sid rn', create_session app_name u rn = (Ok sid, rn') →
                          count rn' = S (count rn)) →
         (∀ u rn e rn', create_session app_name u rn = (Raise e, rn') →
                        count rn' = count rn) →
         (∀ u sid c rn, count (run_async u sid c rn).2 = count rn) →
         (count (runner (served requests s)) + size (user_sessions s)
          = count (runner s) + size (user_sessions (served requests s)))%nat).
Proof.
  induction requests as [|request requests IH]; intros s.
  - cbn. repeat split; done.
  - cbn [serve foldl].
    destruct (chat_sessions app_name create_session run_async request s)
      as [Hm Hc].
    set (s1 := (chat_with request s).2) in *.
    destruct (IH s1) as (IH1 & IH2 & IH3). fold (served requests s1).
    split; [|split].
    + intros u sid Hu. apply IH1. rewrite Hm.
      by apply (get_session_keeps app_name create_session).
    + intros u Hu. rewrite fmap_cons in Hu.
      apply not_elem_of_cons in Hu as [Hne Hu].
      rewrite IH2 by done. rewrite Hm. by apply session_of_other.
    + intros count Hok Hfail Hrun.
      specialize (IH3 count Hok Hfail Hrun).
      assert (Hstep : (count (runner s1) + size (user_sessions s)
                       = count (runner s) + size (user_sessions s1))%nat).
      { subst s1.
        destruct (user_sessions s !! user_id request) as [sid|] eqn:Hu.
        - rewrite (chat_known app_name create_session run_async _ _ _ Hu).
          cbn. rewrite Hrun. lia.
        - destruct (create_session app_name (user_id request) (runner s))
            as [[sid|e] r] eqn:Hcreate.
          + rewrite (chat_new app_name create_session run_async _ _ _ _
                       Hu Hcreate).
            cbn. rewrite Hrun, (Hok _ _ _ _ Hcreate).
            rewrite (map_size_insert_None _ _ _ Hu). lia.
          + rewrite (chat_failed _ _ _ _ Hu Hcreate). cbn.
            rewrite (Hfail _ _ _ _ Hcreate). lia. }
      lia.
Qed.

End ChatProperties.

Lemma chat_raises_only_from_session_creation_witness :
  (chat_endpoint "travel_agent_app" demo_failing_create demo_run_async
                 {| user_id := "u1"; message := "plan Rome" |} demo_server).1
  = Raise (RuntimeError "session service down").
Proof.
  apply (proj1 (chat_raises_only_from_session_creation
                  "travel_agent_app" demo_failing_create demo_run_async
                  {| user_id := "u1"; message := "plan Rome" |} demo_server
                  (RuntimeError "session service down"))).
  split; reflexivity.
Defined.

Lemma chat_reply_is_never_empty_witness :
  resp_user_id {| resp_user_id := "u1"; response := "Hello there." |} = "u1"
  ∧ response {| resp_user_id := "u1"; response := "Hello there." |} ≠ "".
Proof.
  apply (chat_reply_is_never_empty "travel_agent_app" demo_create_session
           demo_run_async {| user_id := "u1"; message := "plan Rome" |}
           demo_server).
  vm_compute. reflexivity.
Defined.

Lemma session_map_only_grows_witness :
  let requests := [ {| user_id := "u2"; message := "hi" |};
                    {| user_id := "u1"; message := "again" |} ] in
  let s := {| user_sessions := {[ "u1" := "s-1" ]}; runner := 5%nat;
              created := [("u1", "s-1")] |} in
  let s' := serve "travel_agent_app" demo_create_session demo_run_async
                  requests s in
  user_sessions s' !! "u1" = Some "s-1"
  ∧ (runner s' + size (user_sessions s)
     = runner s + size (user_sessions s'))%nat.
Proof.
  intros requests s s'.
  destruct (session_map_only_grows "travel_agent_app" demo_create_session
              demo_run_async requests s) as (Hkeep & _ & Hcount).
  split.
  - apply Hkeep. vm_compute. reflexivity.
  - apply (Hcount (λ n, n)).
    + intros u rn sid rn' [= _ <-]. reflexivity.
    + intros u rn e rn' H. discriminate H.
    + intros u sid c rn. reflexivity.
Defined.

(** ** The offline build *)

(** A path that is not among concrete paths, by evaluation. *)
Ltac not_among_paths := apply (bool_decide_unpack _); vm_compute; exact I.

Lemma write_file_ok fs p c fs' :
  write_file fs p c = (Ok (), fs') → fs' = <[p := File c]> fs.
Proof. apply write_file_done. Qed.

Section BuildFurther.
Variable split_text : string → list string.
Variable Embeddings : Type.
Variable from_documents : list LcDocument → Embeddings → Exc VectorStore.
Variable generic_travel_data : list Doc.
Variable embeddings : Embeddings.

Abbreviation store_of :=
  (create_vector_store split_text Embeddings from_documents).
Abbreviation run_main :=
  (main split_text Embeddings from_documents generic_travel_data embeddings).

Lemma chunks_of_nil documents :
  Forall (λ doc, split_text (doc_content doc) = []) documents →
  chunks_of split_text documents = [].
Proof.
  induction 1 as [|doc documents Hdoc _ IH]; [done|].
  unfold chunks_of in *. cbn. by rewrite Hdoc, IH.
Qed.

(** X14.  [create_vector_store] leaves the disk untouched when there is
    nothing to persist: it returns without writing when no document gives
    a chunk (no document at all, or documents the splitter empties), and
    it lets the exception out, before any write, when the vector store
    cannot be built from the chunks. *)
Theorem create_vector_store_writes_nothing_without_a_store
    (documents : list Doc) (model : Embeddings) (file_path : string)
    (fs : gmap string node) :
  (Forall (λ doc, split_text (doc_content doc) = []) documents →
   store_of documents model file_path fs = (Ok (), fs))
  ∧ (∀ e, chunks_of split_text documents ≠ [] →
          from_documents (lc_documents_of split_text documents) model
          = Raise e →
          store_of documents model file_path fs = (Raise e, fs)).
Proof.
  split.
  - intros Hnone%chunks_of_nil. unfold create_vector_store.
    fold (chunks_of split_text documents). by rewrite Hnone.
  - intros e Hsome Hraise. unfold create_vector_store.
    fold (chunks_of split_text documents).
    unfold lc_documents_of in Hraise.
    destruct (chunks_of split_text documents) as [|c cs]; [done|].
    by rewrite Hraise.
Qed.

(** X15.  The build never touches the preference file: after [main],
    whether it returns or raises, [data/user_prefs.json] is as it was and
    [load_preferences] answers as before. *)
Theorem build_keeps_the_preferences (fs : gmap string node) :
  (run_main fs).2 !! PREFS_PATH = fs !! PREFS_PATH
  ∧ load_preferences (run_main fs).2 = load_preferences fs
  ∧ prefs_store_ok (run_main fs).2 = prefs_store_ok fs.
Proof.
  assert (H : (run_main fs).2 !! PREFS_PATH = fs !! PREFS_PATH).
  { apply main_other. not_among_paths. }
  split; [done|].
  rewrite !load_preferences_cases. unfold prefs_store_ok. by rewrite H.
Qed.

(** X16.  A build that returns has persisted the knowledge store it
    built, when the documents gave at least one chunk:
    [data/knowledge_base.faiss] is a directory, [index.faiss] inside it
    holds the index of the store that [FAISS.from_documents] made from
    the chunks, and [index.pkl] its docstore. *)
Theorem main_persists_the_knowledge_store (fs fs' : gmap string node) :
  run_main fs = (Ok (), fs') →
  chunks_of split_text generic_travel_data ≠ [] →
  ∃ vector_store,
    from_documents (lc_documents_of split_text generic_travel_data) embeddings
    = Ok vector_store
    ∧ fs' !! KNOWLEDGE_BASE_PATH = Some Dir
    ∧ fs' !! path_join KNOWLEDGE_BASE_PATH "index.faiss"
      = Some (File (FaissBlob (vs_index vector_store)))
    ∧ fs' !! path_join KNOWLEDGE_BASE_PATH "index.pkl"
      = Some (File (PickleBlob ((λ d, (page_content d, metadata_source d))
                                  <$> vs_docstore vector_store))).
Proof.
  unfold main, and_then.
  destruct (makedirs "data" fs) as [[[]|e] fs1]; [|done].
  destruct (store_of generic_travel_data embeddings KNOWLEDGE_BASE_PATH fs1)
    as [[[]|e] fs2] eqn:Hkb; [|done].
  intros Hprefs Hsome.
  assert (Hlast : ∀ p, p ∉ store_paths USER_PREFS_PATH → fs' !! p = fs2 !! p).
  { intros p Hp. replace fs' with (store_of
      [{| doc_content := "This is a placeholder for user preferences.";
          doc_source := "system_init" |}] embeddings USER_PREFS_PATH fs2).2
      by by rewrite Hprefs.
    by apply create_vector_store_other. }
  rewrite !Hlast by not_among_paths.
  revert Hkb. unfold create_vector_store.
  fold (chunks_of split_text generic_travel_data).
  unfold lc_documents_of.
  destruct (chunks_of split_text generic_travel_data) as [|c cs]; [done|].
  destruct (from_documents _ embeddings) as [vs|e]; [|done].
  unfold save_local, and_then.
  destruct (makedirs KNOWLEDGE_BASE_PATH fs1) as [[[]|e] fa] eqn:Hmk; [|done].
  apply makedirs_dir in Hmk.
  destruct (write_file fa _ _) as [[[]|e] fb] eqn:Hw1; [|done].
  intros Hw2. apply write_file_ok in Hw1, Hw2. subst fb fs2.
  exists vs. split; [done|].
  split; [by rewrite !lookup_insert_ne by done|].
  split; [by rewrite lookup_insert_ne, lookup_insert_eq by done|].
  by rewrite lookup_insert_eq.
Qed.

End BuildFurther.

Lemma create_vector_store_writes_nothing_without_a_store_witness :
  create_vector_store (λ _, []) unit demo_from_documents demo_docs ()
                      KNOWLEDGE_BASE_PATH ∅
  = (Ok (), ∅)
  ∧ create_vector_store (λ s, [s]) unit demo_failing_from_documents demo_docs ()
                        KNOWLEDGE_BASE_PATH ∅
    = (Raise (RuntimeError "embedding failed"), ∅).
Proof.
  split.
  - apply (proj1 (create_vector_store_writes_nothing_without_a_store
                    (λ _, []) unit demo_from_documents demo_docs ()
                    KNOWLEDGE_BASE_PATH ∅)).
    repeat constructor.
  - apply (proj2 (create_vector_store_writes_nothing_without_a_store
                    (λ s, [s]) unit demo_failing_from_documents demo_docs ()
                    KNOWLEDGE_BASE_PATH ∅)).
    + discriminate.
    + reflexivity.
Defined.

Lemma main_persists_the_knowledge_store_witness :
  ∃ vector_store,
    demo_from_documents (lc_documents_of (λ s, [s]) demo_docs) ()
    = Ok vector_store
    ∧ (demo_build ∅).2 !! KNOWLEDGE_BASE_PATH = Some Dir
    ∧ (demo_build ∅).2 !! path_join KNOWLEDGE_BASE_PATH "index.faiss"
      = Some (File (FaissBlob (vs_index vector_store)))
    ∧ (demo_build ∅).2 !! path_join KNOWLEDGE_BASE_PATH "index.pkl"
      = Some (File (PickleBlob ((λ d, (page_content d, metadata_source d))
                                  <$> vs_docstore vector_store))).
Proof.
  apply (main_persists_the_knowledge_store (λ s, [s]) unit demo_from_documents
           demo_docs () ∅ (demo_build ∅).2).
  - vm_compute. reflexivity.
  - discriminate.
Defined.
